(** * LecToCal: the lesson-text extraction engine of [lectocal/lectio.py]

    A shallow embedding of the text-processing core of [lectio.py]: the
    line classifiers, the time-range parser, [_extract_lesson_info], the
    visibility filter of [_parse_element_to_lesson] and the duplicate
    filter [_filter_for_duplicates].

    Python [str] values are sequences of Unicode code points; they are
    modelled as [list N].  The regular expressions of the module are kept
    as data (type [regex]) and run by a backtracking matcher that lists
    the successful matches in the priority order of Python's [re]. *)

From Stdlib Require Import String Ascii NArith ZArith DecimalN Lia.
From stdpp Require Import base numbers option list.

Local Open Scope N_scope.

(** ** Strings *)

Module Str.

(** A Python [str]: a sequence of code points. *)
Definition char := N.
Definition str := list char.

(** Decoding of a UTF-8 literal of this file into code points. *)
Fixpoint utf8_go (acc : N) (pending : nat) (bs : list N) : str :=
  match bs with
  | [] => []
  | b :: bs' =>
      match pending with
      | O =>
          if b <? 128 then b :: utf8_go 0 0 bs'
          else if b <? 224 then utf8_go (b - 192) 1 bs'
          else if b <? 240 then utf8_go (b - 224) 2 bs'
          else utf8_go (b - 240) 3 bs'
      | S O => (acc * 64 + (b - 128)) :: utf8_go 0 0 bs'
      | S p => utf8_go (acc * 64 + (b - 128)) p bs'
      end
  end.

Definition u (s : string) : str :=
  utf8_go 0 0 (List.map N_of_ascii (list_ascii_of_string s)).

(** The code point of a literal of one character. *)
Definition cp (s : string) : char := hd 0 (u s).

Definition str_eqb (a b : str) : bool := bool_decide (a = b).

(** [s.startswith(p)]: the rest of [s] after the prefix [p], if any. *)
Fixpoint strip_prefix (p s : str) : option str :=
  match p, s with
  | [], _ => Some s
  | _ :: _, [] => None
  | a :: p', b :: s' => if a =? b then strip_prefix p' s' else None
  end.

Definition startswith (s p : str) : bool :=
  match strip_prefix p s with Some _ => true | None => false end.

(** [s.find(sub) != -1] *)
Fixpoint contains (sub s : str) : bool :=
  startswith s sub ||
  match s with
  | [] => false
  | _ :: s' => contains sub s'
  end.

(** [s.replace(old, new)] for a non-empty [old]: the occurrences of
    [old] are replaced from left to right, without overlap.  [skip]
    counts the code points of an occurrence still to be passed over. *)
Fixpoint replace_go (old new : str) (skip : nat) (s : str) : str :=
  match s with
  | [] => []
  | x :: s' =>
      match skip with
      | S k => replace_go old new k s'
      | O =>
          if startswith s old
          then new ++ replace_go old new (length old - 1) s'
          else x :: replace_go old new 0 s'
      end
  end.

Definition replace (s old new : str) : str := replace_go old new 0 s.

(** The line boundaries of [str.splitlines]: LF, VT, FF, CR, FS, GS, RS,
    NEL, LINE SEPARATOR and PARAGRAPH SEPARATOR. *)
Definition is_linebreak (c : char) : bool :=
  bool_decide (c ∈ [10; 11; 12; 13; 28; 29; 30; 133; 8232; 8233]).

(** [s.splitlines()]: a CR LF pair is one boundary, and a final boundary
    opens no further (empty) line. *)
Fixpoint splitlines_go (after_cr : bool) (cur : str) (s : str) : list str :=
  match s with
  | [] => match cur with [] => [] | _ => [cur] end
  | x :: s' =>
      if after_cr && (x =? 10) then splitlines_go false [] s'
      else if is_linebreak x then cur :: splitlines_go (x =? 13) [] s'
      else splitlines_go false (cur ++ [x]) s'
  end.

Definition splitlines (s : str) : list str := splitlines_go false [] s.

End Str.
Import Str.

(** ** Regular expressions *)

Module Re.

(** Zero digits of the decimal-digit runs of Unicode 14 (category Nd):
    [\d] in a [str] pattern matches the ten code points from each. *)
Definition digit_zeros : list N :=
  [48; 1632; 1776; 1984; 2406; 2534; 2662; 2790; 2918; 3046; 3174; 3302;
   3430; 3558; 3664; 3792; 3872; 4160; 4240; 6112; 6160; 6470; 6608; 6784;
   6800; 6992; 7088; 7232; 7248; 42528; 43216; 43264; 43472; 43504; 43600;
   44016; 65296; 66720; 68912; 69734; 69872; 69942; 70096; 70384; 70736;
   70864; 71248; 71360; 71472; 71904; 72016; 72784; 73040; 73120; 92768;
   92864; 93008; 120782; 120792; 120802; 120812; 120822; 123200; 123632;
   125264; 130032].

(** The value of a decimal digit, as [int] reads it. *)
Definition digit_value (c : char) : option N :=
  match List.find (fun z => (z <=? c) && (c <? z + 10)) digit_zeros with
  | Some z => Some (c - z)
  | None => None
  end.

Definition is_digit (c : char) : bool :=
  match digit_value c with Some _ => true | None => false end.

(** Character sets: [.], [\d], a single character, [[a-b]], [[^c]]. *)
Inductive cset :=
| Any
| Digit
| Chr (c : char)
| Range (a b : char)
| NotChr (c : char).

Definition in_cset (cs : cset) (c : char) : bool :=
  match cs with
  | Any => negb (c =? 10)
  | Digit => is_digit c
  | Chr a => c =? a
  | Range a b => (a <=? c) && (c <=? b)
  | NotChr a => negb (c =? a)
  end.

(** The fragment of Python's pattern language that the module uses.
    [Star] is the greedy [*] of a character set, [Opt] the greedy [?],
    [Grp i] the capturing group number [i]; a non-capturing group is
    plain nesting. *)
Inductive regex :=
| Eps
| Cls (cs : cset)
| Lit (s : str)
| Seq (r1 r2 : regex)
| Alt (r1 r2 : regex)
| Opt (r : regex)
| Star (cs : cset)
| Grp (i : nat) (r : regex).

(** [r{n}] *)
Fixpoint rep (n : nat) (r : regex) : regex :=
  match n with
  | O => Eps
  | S O => r
  | S k => Seq r (rep k r)
  end.

(** [r{1,2}] *)
Definition rep_1_2 (r : regex) : regex := Seq r (Opt r).

(** [cs+] *)
Definition plus (cs : cset) : regex := Seq (Cls cs) (Star cs).

(** Captured groups, the latest binding first. *)
Definition caps := list (nat * str).

(** [match.group(i)]: [None] when the group took no part in the match. *)
Fixpoint group (c : caps) (i : nat) : option str :=
  match c with
  | [] => None
  | (j, s) :: c' => if Nat.eqb i j then Some s else group c' i
  end.

Fixpoint star_cls (cs : cset) (c : caps) (s : str) : list (caps * str) :=
  match s with
  | [] => [(c, [])]
  | x :: s' =>
      if in_cset cs x then star_cls cs c s' ++ [(c, s)] else [(c, s)]
  end.

(** All the ways [r] matches a prefix of [s], as (captures, rest of the
    input), in the order in which the backtracking matcher of [re] tries
    them: the head of the list is the match that [re] reports. *)
Fixpoint mtch (r : regex) (c : caps) (s : str) : list (caps * str) :=
  match r with
  | Eps => [(c, s)]
  | Cls cs =>
      match s with
      | x :: s' => if in_cset cs x then [(c, s')] else []
      | [] => []
      end
  | Lit l =>
      match strip_prefix l s with
      | Some s' => [(c, s')]
      | None => []
      end
  | Seq r1 r2 => mtch r1 c s ≫= (fun m => mtch r2 m.1 m.2)
  | Alt r1 r2 => mtch r1 c s ++ mtch r2 c s
  | Opt r1 => mtch r1 c s ++ [(c, s)]
  | Star cs => star_cls cs c s
  | Grp i r1 =>
      (fun m => ((i, take (length s - length m.2) s) :: m.1, m.2))
        <$> mtch r1 c s
  end.

(** The least number of code points that a match of [r] takes up, and
    whether [r] is free of capturing groups. *)
Fixpoint min_len (r : regex) : nat :=
  match r with
  | Eps | Opt _ | Star _ => 0
  | Cls _ => 1
  | Lit l => length l
  | Seq r1 r2 => min_len r1 + min_len r2
  | Alt r1 r2 => min_len r1 `min` min_len r2
  | Grp _ r1 => min_len r1
  end.

Fixpoint no_groups (r : regex) : bool :=
  match r with
  | Eps | Cls _ | Lit _ | Star _ => true
  | Seq r1 r2 | Alt r1 r2 => no_groups r1 && no_groups r2
  | Opt r1 => no_groups r1
  | Grp _ _ => false
  end.

(** [re.match(r, s)]: the match at the start of [s]. *)
Definition match_ (r : regex) (s : str) : option (caps * str) :=
  head (mtch r [] s).

(** [re.search(r, s)]: the match at the leftmost position that has one. *)
Fixpoint search (r : regex) (s : str) : option caps :=
  match match_ r s with
  | Some m => Some m.1
  | None =>
      match s with
      | [] => None
      | _ :: s' => search r s'
      end
  end.

(** [re.sub(r, repl, s)] for a pattern that matches no empty string;
    [repl] builds the replacement from the groups of each match. *)
Fixpoint sub_go (r : regex) (repl : caps -> str) (skip : nat) (s : str)
  : str :=
  match s with
  | [] => []
  | x :: s' =>
      match skip with
      | S k => sub_go r repl k s'
      | O =>
          match match_ r s with
          | Some m =>
              repl m.1 ++ sub_go r repl (length s - length m.2 - 1) s'
          | None => x :: sub_go r repl 0 s'
          end
      end
  end.

Definition sub (r : regex) (repl : caps -> str) (s : str) : str :=
  sub_go r repl 0 s.

End Re.
Import Re.

(** ** Exceptions *)

(** The exceptions that the modelled functions raise: those that
    [lectio.py] declares, and the built-in ones that escape from
    [strptime], [datetime.combine] and an attribute access on [None]. *)
Inductive error :=
| InvalidStatusError (line : str)
| InvalidTimeLineError (line : str)
| InvalidLocationError (line : str)
| InvalidRessourcesError (line : str)
| InvalidGroupsError (line : str)
| ValueError
| TypeError
| AttributeError.

Inductive result (A : Type) :=
| Ok (a : A)
| Raise (e : error).
Arguments Ok {A} a.
Arguments Raise {A} e.

#[global] Instance result_ret : MRet result := fun _ a => Ok a.
#[global] Instance result_bind : MBind result := fun _ _ f m =>
  match m with
  | Ok a => f a
  | Raise e => Raise e
  end.

(** ** Dates and times of day *)

Module Datetime.

Record date := mkdate { year : N; month : N; day : N }.
(** A [datetime.time]; [strptime] with [%H:%M] leaves the seconds zero. *)
Record time := mktime { hour : N; minute : N }.

(** A [datetime.date] or a [datetime.datetime] (from [combine]). *)
Inductive moment :=
| DateOnly (d : date)
| DateTime (d : date) (t : time).

Definition date_of (m : moment) : date :=
  match m with
  | DateOnly d => d
  | DateTime d _ => d
  end.

Definition is_leap (y : N) : bool :=
  ((y mod 4 =? 0) && negb (y mod 100 =? 0)) || (y mod 400 =? 0).

Definition days_in_month (y m : N) : N :=
  if m =? 2 then (if is_leap y then 29 else 28)
  else if bool_decide (m ∈ [4; 6; 9; 11]) then 30
  else 31.

(** The check of the [datetime.date] constructor. *)
Definition valid_date (y m d : N) : bool :=
  (1 <=? y) && (y <=? 9999) && (1 <=? m) && (m <=? 12)
  && (1 <=? d) && (d <=? days_in_month y m).

(** [int(s)] on decimal digits; of the white space that [int] strips,
    a field of the format patterns can only hold leading blanks. *)
Fixpoint int_go (acc : N) (s : str) : option N :=
  match s with
  | [] => Some acc
  | c :: s' =>
      match digit_value c with
      | Some v => int_go (acc * 10 + v) s'
      | None => None
      end
  end.

Fixpoint lstrip (s : str) : str :=
  match s with
  | c :: s' => if c =? cp " " then lstrip s' else s
  | [] => []
  end.

Definition int (s : str) : option N :=
  match lstrip s with
  | [] => None
  | digits => int_go 0 digits
  end.

(** r"[1-9]" *)
Definition d19 : cset := Range (cp "1") (cp "9").

(** The pattern that [_strptime] compiles for the format "%d/%m-%Y":
    r"(?P<d>3[0-1]|[1-2]\d|0[1-9]|[1-9]| [1-9])/(?P<m>1[0-2]|0[1-9]|[1-9])-(?P<Y>\d\d\d\d)" *)
Definition date_format_re : regex :=
  Eval vm_compute in
    Seq (Grp 1 (Alt (Seq (Cls (Chr (cp "3"))) (Cls (Range (cp "0") (cp "1"))))
               (Alt (Seq (Cls (Range (cp "1") (cp "2"))) (Cls Digit))
               (Alt (Seq (Cls (Chr (cp "0"))) (Cls d19))
               (Alt (Cls d19)
                    (Seq (Cls (Chr (cp " "))) (Cls d19)))))))
   (Seq (Lit (u "/"))
   (Seq (Grp 2 (Alt (Seq (Cls (Chr (cp "1"))) (Cls (Range (cp "0") (cp "2"))))
               (Alt (Seq (Cls (Chr (cp "0"))) (Cls d19))
                    (Cls d19))))
   (Seq (Lit (u "-"))
        (Grp 3 (rep 4 (Cls Digit)))))).

(** The pattern for "%H:%M": r"(?P<H>2[0-3]|[0-1]\d|\d):(?P<M>[0-5]\d|\d)" *)
Definition time_format_re : regex :=
  Eval vm_compute in
    Seq (Grp 1 (Alt (Seq (Cls (Chr (cp "2"))) (Cls (Range (cp "0") (cp "3"))))
               (Alt (Seq (Cls (Range (cp "0") (cp "1"))) (Cls Digit))
                    (Cls Digit))))
   (Seq (Lit (u ":"))
        (Grp 2 (Alt (Seq (Cls (Range (cp "0") (cp "5"))) (Cls Digit))
                    (Cls Digit)))).

(** The fields that the format pattern finds in [data]: the pattern
    must match at the start, and no data may remain after the match. *)
Definition strptime_fields (fmt : regex) (data : str) : result caps :=
  match match_ fmt data with
  | Some (c, []) => Ok c
  | _ => Raise ValueError
  end.

Definition field (c : caps) (i : nat) : result N :=
  match group c i with
  | Some s => match int s with Some n => Ok n | None => Raise ValueError end
  | None => Raise ValueError
  end.

(** [datetime.datetime.strptime(data, "%d/%m-%Y").date()] *)
Definition strptime_date (data : str) : result date :=
  c ← strptime_fields date_format_re data;
  d ← field c 1;
  m ← field c 2;
  y ← field c 3;
  if valid_date y m d then Ok (mkdate y m d) else Raise ValueError.

(** [datetime.datetime.strptime(data, "%H:%M").time()] *)
Definition strptime_time (data : str) : result time :=
  c ← strptime_fields time_format_re data;
  h ← field c 1;
  m ← field c 2;
  Ok (mktime h m).

(** *** Ordinals, date arithmetic and the ISO calendar

    The algorithms of [datetime]: [_days_before_year], [_ymd2ord],
    [_ord2ymd], [date.__add__] with a [timedelta] of whole weeks,
    [_isoweek1monday] and [date.isocalendar]. *)

Definition DAYS_IN_MONTH : list Z :=
  [-1; 31; 28; 31; 30; 31; 30; 31; 31; 30; 31; 30; 31]%Z.

Definition DAYS_BEFORE_MONTH : list Z :=
  [-1; 0; 31; 59; 90; 120; 151; 181; 212; 243; 273; 304; 334]%Z.

Definition table (t : list Z) (i : Z) : Z := nth (Z.to_nat i) t 0%Z.

Definition is_leap_year (y : Z) : bool :=
  ((y mod 4 =? 0) && (negb (y mod 100 =? 0) || (y mod 400 =? 0)))%Z.

Definition days_before_year (year : Z) : Z :=
  (let y := year - 1 in y * 365 + y / 4 - y / 100 + y / 400)%Z.

Definition days_before_month (year month : Z) : Z :=
  (table DAYS_BEFORE_MONTH month
   + (if (2 <? month) && is_leap_year year then 1 else 0))%Z.

Definition ymd2ord (year month day : Z) : Z :=
  (days_before_year year + days_before_month year month + day)%Z.

Definition DI400Y : Z := 146097.
Definition DI100Y : Z := 36524.
Definition DI4Y : Z := 1461.
Definition MAXORDINAL : Z := 3652059.

Definition ord2ymd (n : Z) : Z * Z * Z :=
  (let n := n - 1 in
   let n400 := n / DI400Y in
   let n := n mod DI400Y in
   let year := n400 * 400 + 1 in
   let n100 := n / DI100Y in
   let n := n mod DI100Y in
   let n4 := n / DI4Y in
   let n := n mod DI4Y in
   let n1 := n / 365 in
   let n := n mod 365 in
   let year := year + n100 * 100 + n4 * 4 + n1 in
   if (n1 =? 4) || (n100 =? 4) then (year - 1, 12, 31)
   else
     let leapyear := (n1 =? 3) && (negb (n4 =? 24) || (n100 =? 3)) in
     let month := Z.shiftr (n + 50) 5 in
     let preceding :=
       table DAYS_BEFORE_MONTH month
       + (if (2 <? month) && leapyear then 1 else 0) in
     let '(month, preceding) :=
       if n <? preceding
       then (month - 1,
             preceding
             - (table DAYS_IN_MONTH (month - 1)
                + (if (month - 1 =? 2) && leapyear then 1 else 0)))
       else (month, preceding) in
     (year, month, n - preceding + 1))%Z.

(** [d.toordinal()] and [date.fromordinal(n)] *)
Definition toordinal (d : date) : Z :=
  ymd2ord (Z.of_N (year d)) (Z.of_N (month d)) (Z.of_N (day d)).

Definition fromordinal (n : Z) : date :=
  let '(y, m, d) := ord2ymd n in mkdate (Z.to_N y) (Z.to_N m) (Z.to_N d).

(** [d + datetime.timedelta(weeks=w)]; [None] stands for the
    [OverflowError] of a [timedelta] of more than 999999999 days or of a
    date outside the years 1 to 9999. *)
Definition add_weeks (d : date) (w : Z) : option date :=
  (let days := 7 * w in
   if 999999999 <? Z.abs days then None
   else
     let o := toordinal d + days in
     if (0 <? o) && (o <=? MAXORDINAL) then Some (fromordinal o) else None)%Z.

Definition isoweek1monday (year : Z) : Z :=
  (let firstday := ymd2ord year 1 1 in
   let firstweekday := (firstday + 6) mod 7 in
   let week1monday := firstday - firstweekday in
   if 3 <? firstweekday then week1monday + 7 else week1monday)%Z.

(** [d.isocalendar()]: ISO year, week number and weekday. *)
Definition isocalendar (d : date) : Z * Z * Z :=
  (let year := Z.of_N (Datetime.year d) in
   let week1monday := isoweek1monday year in
   let today := toordinal d in
   let week := (today - week1monday) / 7 in
   let day := (today - week1monday) mod 7 in
   if week <? 0 then
     let year := year - 1 in
     let week1monday := isoweek1monday year in
     (year, (today - week1monday) / 7 + 1, (today - week1monday) mod 7 + 1)
   else if (52 <=? week) && (isoweek1monday (year + 1) <=? today)
   then (year + 1, 1, day + 1)
   else (year, week + 1, day + 1))%Z.

(** [str(n)] for an [int], and the format "{0:02d}": decimal digits
    (the code points 48 to 57), a sign, and zeros after the sign up to a
    width of two. *)
Fixpoint uint_chars (d : Decimal.uint) : str :=
  match d with
  | Decimal.Nil => []
  | Decimal.D0 d => 48 :: uint_chars d
  | Decimal.D1 d => 49 :: uint_chars d
  | Decimal.D2 d => 50 :: uint_chars d
  | Decimal.D3 d => 51 :: uint_chars d
  | Decimal.D4 d => 52 :: uint_chars d
  | Decimal.D5 d => 53 :: uint_chars d
  | Decimal.D6 d => 54 :: uint_chars d
  | Decimal.D7 d => 55 :: uint_chars d
  | Decimal.D8 d => 56 :: uint_chars d
  | Decimal.D9 d => 57 :: uint_chars d
  end.

Definition sign_chars (n : Z) : str :=
  if (n <? 0)%Z then [45] else [].

Definition digit_chars (n : Z) : str :=
  uint_chars (N.to_uint (Z.to_N (Z.abs n))).

Definition str_of_int (n : Z) : str := sign_chars n ++ digit_chars n.

Definition format_02d (n : Z) : str :=
  sign_chars n
  ++ replicate (2 - length (sign_chars n) - length (digit_chars n)) 48
  ++ digit_chars n.

End Datetime.
Import Datetime.

(** ** The lesson record *)

Module lesson.

(** Modelled from the spec: the class [Lesson] of [lesson.py], which is
    not among the sources at hand.  A Lesson is an immutable record of
    the eight values that [_parse_element_to_lesson] passes to the
    constructor, and two Lessons are equal iff every field is equal. *)
Record Lesson := mkLesson {
  id : option str;
  summary : str;
  status : option str;
  start : option moment;
  end_ : option moment;
  location : option str;
  description : option str;
  link : option str
}.

#[global] Instance date_eq_dec : EqDecision date.
Proof. solve_decision. Defined.
#[global] Instance time_eq_dec : EqDecision time.
Proof. solve_decision. Defined.
#[global] Instance moment_eq_dec : EqDecision moment.
Proof. solve_decision. Defined.
#[global] Instance Lesson_eq_dec : EqDecision Lesson.
Proof. solve_decision. Defined.

End lesson.

(** ** lectio.py *)

Module lectio.

(** [LESSON_STATUS = {None: "normal", "Ændret!": "changed", "Aflyst!": "cancelled"}] *)
Definition LESSON_STATUS : list (option str * str) :=
  Eval vm_compute in
    [(None, u "normal");
     (Some (u "Ændret!"), u "changed");
     (Some (u "Aflyst!"), u "cancelled")].

(** [d[k]], with [None] for a [KeyError]. *)
Fixpoint dict_get (d : list (option str * str)) (k : option str)
  : option str :=
  match d with
  | [] => None
  | (k', v) :: d' => if bool_decide (k = k') then Some v else dict_get d' k
  end.

(** [SPACER = " " + u"•" + " "] *)
Definition SPACER : str := Eval vm_compute in u " • ".

Definition cancelled : str := Eval vm_compute in u "cancelled".
Definition changed : str := Eval vm_compute in u "changed".
Definition nl : char := 10.

(** Truth value of a [str], and of a value that is a [str] or [None]. *)
Definition truthy (s : str) : bool :=
  match s with [] => false | _ => true end.
Definition truthy_opt (o : option str) : bool :=
  match o with Some s => truthy s | None => false end.

(** *** Identifier and link *)

(** r"(?:absid|ProeveholdId|outboundCensorID|aftaleid)=(\d+)" *)
Definition id_re : regex :=
  Eval vm_compute in
    Seq (Alt (Lit (u "absid"))
        (Alt (Lit (u "ProeveholdId"))
        (Alt (Lit (u "outboundCensorID"))
             (Lit (u "aftaleid")))))
   (Seq (Lit (u "="))
        (Grp 1 (plus Digit))).

Definition _get_id_from_link (link : str) : option str :=
  match search id_re link with
  | None => None
  | Some m => group m 1
  end.

(** [s.split(sep, 1)[0]] *)
Fixpoint before_first (sep s : str) : str :=
  if startswith s sep then []
  else match s with
       | [] => []
       | x :: s' => x :: before_first sep s'
       end.

Definition _get_complete_link (link : str) : str :=
  u "https://www.lectio.dk" ++ before_first (u "&prevurl=") link.

(** *** Line classifiers and payload extractors *)

(** r"Ændret!|Aflyst!" *)
Definition status_re : regex :=
  Eval vm_compute in Alt (Lit (u "Ændret!")) (Lit (u "Aflyst!")).

Definition _is_status_line (line : str) : bool :=
  match search status_re line with Some _ => true | None => false end.

Definition _get_status_from_line (line : str) : result str :=
  match dict_get LESSON_STATUS (Some line) with
  | Some v => Ok v
  | None => Raise (InvalidStatusError line)
  end.

(** r"Lokaler?: " *)
Definition location_marker_re : regex :=
  Eval vm_compute in
    Seq (Lit (u "Lokale")) (Seq (Opt (Cls (Chr (cp "r")))) (Lit (u ": "))).

Definition _is_location_line (line : str) : bool :=
  match search location_marker_re line with
  | Some _ => true
  | None => false
  end.

(** r"Lokaler?: " and then group 1: r".*" *)
Definition location_re : regex :=
  Eval vm_compute in Seq location_marker_re (Grp 1 (Star Any)).

Definition _get_location_from_line (line : str) : result (option str) :=
  match search location_re line with
  | None => Raise (InvalidLocationError line)
  | Some m => Ok (group m 1)
  end.

Definition _is_groups_line (line : str) : bool :=
  startswith line (u "Hold: ").

(** r"Hold: " and then group 1: r".*" *)
Definition groups_re : regex :=
  Eval vm_compute in Seq (Lit (u "Hold: ")) (Grp 1 (Star Any)).

Definition _get_groups_from_line (line : str) : result (option str) :=
  match search groups_re line with
  | None => Raise (InvalidGroupsError line)
  | Some m => Ok (group m 1)
  end.

Definition _is_ressources_line (line : str) : bool :=
  startswith line (u "Ressourcer: ").

(** r"Ressourcer: " and then group 1: r".*" *)
Definition ressources_re : regex :=
  Eval vm_compute in Seq (Lit (u "Ressourcer: ")) (Grp 1 (Star Any)).

Definition _get_ressources_from_line (line : str) : result (option str) :=
  match search ressources_re line with
  | None => Raise (InvalidRessourcesError line)
  | Some m => Ok (group m 1)
  end.

(** *** Time-range lines *)

(** r"\d{1,2}/\d{1,2}-\d{4}" *)
Definition date_re : regex :=
  Eval vm_compute in
    Seq (rep_1_2 (Cls Digit))
   (Seq (Lit (u "/"))
   (Seq (rep_1_2 (Cls Digit))
   (Seq (Lit (u "-"))
        (rep 4 (Cls Digit))))).

(** r"\d{2}:\d{2}" *)
Definition clock_re : regex :=
  Eval vm_compute in
    Seq (rep 2 (Cls Digit)) (Seq (Lit (u ":")) (rep 2 (Cls Digit))).

(** r"\d{1,2}/\d{1,2}-\d{4} (?:Hele dagen|\d{2}:\d{2} til (?:\d{1,2}/\d{1,2}-\d{4} )?\d{2}:\d{2})" *)
Definition time_line_re : regex :=
  Eval vm_compute in
    Seq date_re
   (Seq (Lit (u " "))
        (Alt (Lit (u "Hele dagen"))
             (Seq clock_re
             (Seq (Lit (u " til "))
             (Seq (Opt (Seq date_re (Lit (u " "))))
                  clock_re))))).

Definition _is_time_line (line : str) : bool :=
  match search time_line_re line with Some _ => true | None => false end.

Definition _get_date_from_match (m : option str) : result (option date) :=
  if truthy_opt m
  then d ← strptime_date (default [] m); Ok (Some d)
  else Ok None.

Definition _get_time_from_match (m : option str) : result (option time) :=
  if truthy_opt m
  then t ← strptime_time (default [] m); Ok (Some t)
  else Ok None.

(** r"(\d{1,2}/\d{1,2}-\d{4})(?: (\d{2}:\d{2}) til (\d{1,2}/\d{1,2}-\d{4})? ?(\d{2}:\d{2}))?" *)
Definition time_re : regex :=
  Eval vm_compute in
    Seq (Grp 1 date_re)
        (Opt (Seq (Lit (u " "))
             (Seq (Grp 2 clock_re)
             (Seq (Lit (u " til "))
             (Seq (Opt (Grp 3 date_re))
             (Seq (Opt (Lit (u " ")))
                  (Grp 4 clock_re))))))).

(** [datetime.datetime.combine(d, t)]; a [None] date is a [TypeError]. *)
Definition combine (d : option date) (t : time) : result (option moment) :=
  match d with
  | Some d => Ok (Some (DateTime d t))
  | None => Raise TypeError
  end.

(** A time of day is true whatever its value (Python 3.5 and later),
    and so is a date. *)
Definition _get_time_from_line (line : str)
  : result (option moment * option moment * bool) :=
  match search time_re line with
  | None => Raise (InvalidTimeLineError line)
  | Some m =>
      start_date ← _get_date_from_match (group m 1);
      start_time ← _get_time_from_match (group m 2);
      '(start, is_top) ←
        match start_time with
        | Some t => s ← combine start_date t; Ok (s, false)
        | None => Ok (DateOnly <$> start_date, true)
        end;
      end_date ← _get_date_from_match (group m 3);
      end_time ← _get_time_from_match (group m 4);
      let end_date :=
        match end_date with
        | None => start_date
        | Some _ => end_date
        end in
      end_ ←
        match end_time with
        | Some t => combine end_date t
        | None => Ok (DateOnly <$> end_date)
        end;
      Ok (start, end_, is_top)
  end.

(** *** Extraction of one raw block *)

Definition _add_line_to_text (line text : str) : str :=
  (if truthy text then text ++ [nl] else text) ++ line.

Definition _append_section_to_summary (section summary : str) : str :=
  let spacer := if truthy summary then SPACER else [] in
  summary ++ spacer ++ section.

Definition _prepend_section_to_summary (section summary : str) : str :=
  let spacer := if truthy summary then SPACER else [] in
  section ++ spacer ++ summary.

(** The first part of [_extract_lesson_info]: status, event title and
    offset, from the first two lines of a block of two lines or more. *)
Definition leading (lines : list str) : result (option str * str * nat) :=
  match lines with
  | line0 :: line1 :: _ =>
      '(status, line, offset) ←
        (if _is_status_line line0
         then st ← _get_status_from_line line0; Ok (Some st, line1, 1%nat)
         else Ok (None, line0, 0%nat));
      if negb (_is_time_line line)
      then Ok (status, line, S offset)
      else Ok (status, [], offset)
  | _ => Ok (None, [], 0%nat)
  end.

(** The variables that the loop over the lines updates. *)
Record vars := mkvars {
  summary : str;
  description : str;
  groups : option str;
  ressources : option str;
  location : option str;
  start_time : option moment;
  end_time : option moment;
  is_top : bool;
  header_section : bool
}.

Definition vars0 : vars :=
  mkvars [] [] (Some []) (Some []) None None None false true.

Definition set_summary (x : str) (v : vars) : vars :=
  mkvars x (description v) (groups v) (ressources v) (location v)
    (start_time v) (end_time v) (is_top v) (header_section v).
Definition set_description (x : str) (v : vars) : vars :=
  mkvars (summary v) x (groups v) (ressources v) (location v)
    (start_time v) (end_time v) (is_top v) (header_section v).
Definition set_groups (x : option str) (v : vars) : vars :=
  mkvars (summary v) (description v) x (ressources v) (location v)
    (start_time v) (end_time v) (is_top v) (header_section v).
Definition set_ressources (x : option str) (v : vars) : vars :=
  mkvars (summary v) (description v) (groups v) x (location v)
    (start_time v) (end_time v) (is_top v) (header_section v).
Definition set_location (x : option str) (v : vars) : vars :=
  mkvars (summary v) (description v) (groups v) (ressources v) x
    (start_time v) (end_time v) (is_top v) (header_section v).
Definition set_time (x : option moment * option moment * bool) (v : vars)
  : vars :=
  mkvars (summary v) (description v) (groups v) (ressources v) (location v)
    x.1.1 x.1.2 x.2 (header_section v).
Definition end_header (v : vars) : vars :=
  mkvars (summary v) (description v) (groups v) (ressources v) (location v)
    (start_time v) (end_time v) (is_top v) false.

(** One turn of the loop over [lines[offset:]]. *)
Definition step (v : vars) (line : str) : result vars :=
  if header_section v then
    if str_eqb line [] then Ok (end_header v)
    else if _is_time_line line then
      t ← _get_time_from_line line; Ok (set_time t v)
    else if _is_location_line line then
      l ← _get_location_from_line line; Ok (set_location l v)
    else if _is_groups_line line then
      g ← _get_groups_from_line line; Ok (set_groups g v)
    else if _is_ressources_line line then
      r ← _get_ressources_from_line line; Ok (set_ressources r v)
    else Ok (set_summary (_append_section_to_summary line (summary v)) v)
  else Ok (set_description (_add_line_to_text line (description v)) v).

Fixpoint loop (v : vars) (lines : list str) : result vars :=
  match lines with
  | [] => Ok v
  | line :: lines' => v' ← step v line; loop v' lines'
  end.

(** r"Lærer: [^(]*\(" and then group 1: r"[^)]*", and then r"\)" *)
Definition teacher_re : regex :=
  Eval vm_compute in
    Seq (Lit (u "Lærer: "))
   (Seq (Star (NotChr (cp "(")))
   (Seq (Lit (u "("))
   (Seq (Grp 1 (Star (NotChr (cp ")"))))
        (Lit (u ")"))))).

(** The replacement template r"\1" *)
Definition group1 (m : caps) : str := default [] (group m 1).

(** "Remove extra text in the summary" *)
Definition clean_summary (summary : str) : str :=
  sub teacher_re group1 (replace summary (u "Lærere: ") []).

(** The seven values that [_extract_lesson_info] returns. *)
Record info := mkinfo {
  info_summary : str;
  info_status : option str;
  info_start_time : option moment;
  info_end_time : option moment;
  info_location : option str;
  info_description : option str;
  info_is_top : bool
}.

(** "Construct summary and description", and the final tuple. *)
Definition compose (status : option str) (event_title : str) (v : vars)
  : info :=
  let summary := clean_summary (summary v) in
  let description :=
    if truthy_opt (ressources v)
    then u "Ressoucer: " ++ default [] (ressources v) ++ [nl; nl]
         ++ description v
    else description v in
  let summary :=
    if truthy_opt (location v)
    then _append_section_to_summary (default [] (location v)) summary
    else summary in
  let '(summary, description) :=
    if truthy_opt (groups v) then
      let g := default [] (groups v) in
      let summary := _prepend_section_to_summary g summary in
      if negb (contains (u "Alle") g)
      then (summary, event_title ++ [nl; nl] ++ description)
      else (_prepend_section_to_summary event_title summary, description)
    else (_prepend_section_to_summary event_title summary, description) in
  let description :=
    if str_eqb description [] then None else Some description in
  mkinfo summary status (start_time v) (end_time v) (location v)
    description (is_top v).

Definition _extract_lesson_info (title : str) : result info :=
  let lines := splitlines title in
  '(status, event_title, offset) ← leading lines;
  v ← loop vars0 (drop offset lines);
  Ok (compose status event_title v).

(** *** Filter, and construction of the Lesson *)

(** The two attributes that are read from a schedule tile. *)
Record element := mkelement {
  href : option str;
  data_additionalinfo : option str
}.

Definition _parse_element_to_lesson (e : element)
    (show_top show_cancelled : bool) : result (option lesson.Lesson) :=
  let link := href e in
  let '(id, link) :=
    if truthy_opt link
    then (_get_id_from_link (default [] link),
          Some (_get_complete_link (default [] link)))
    else (None, link) in
  match data_additionalinfo e with
  | None => Raise AttributeError
  | Some title =>
      i ← _extract_lesson_info title;
      if negb show_top && info_is_top i then Ok None
      else if negb show_cancelled
              && bool_decide (info_status i = Some cancelled)
      then Ok None
      else Ok (Some (lesson.mkLesson id (info_summary i) (info_status i)
                       (info_start_time i) (info_end_time i)
                       (info_location i) (info_description i) link))
  end.

(** *** Merging the weekly schedules *)

Definition _filter_for_duplicates (schedule : list lesson.Lesson)
  : list lesson.Lesson :=
  foldl (fun filtered_schedule lesson =>
           if bool_decide (lesson ∉ filtered_schedule)
           then filtered_schedule ++ [lesson]
           else filtered_schedule)
        [] schedule.

(** *** Week strings *)

(** [today] is the value of [datetime.date.today()]; [None] stands for
    the [OverflowError] of the date arithmetic. *)
Definition _get_lectio_weekformat_with_offset (today : date) (offset : Z)
  : option str :=
  future_date ← add_weeks today offset;
  let week_number := format_02d (isocalendar future_date).1.2 in
  let year_number := str_of_int (isocalendar future_date).1.1 in
  let lectio_week := week_number ++ year_number in
  Some lectio_week.

(** *** The tiles of a page *)

(** The loop of [_parse_page_to_lessons] over [lesson_elements], the
    elements that the XPath query finds in the page. *)
Fixpoint parse_elements_to_lessons (lesson_elements : list element)
    (show_top show_cancelled : bool) : result (list lesson.Lesson) :=
  match lesson_elements with
  | [] => Ok []
  | element :: rest =>
      lesson ← _parse_element_to_lesson element show_top show_cancelled;
      lessons ← parse_elements_to_lessons rest show_top show_cancelled;
      Ok (match lesson with
          | Some l => l :: lessons
          | None => lessons
          end)
  end.

End lectio.
Import lectio.

Import lectio.

Local Close Scope N_scope.

(** ** Notions used to state the properties *)

Module Spec.

(** The six ways in which a turn of the loop treats a header line, in
    the order in which [step] tests them. *)
Inductive category :=
| Blank
| TimeLine
| LocationLine
| GroupsLine
| RessourcesLine
| FreeText.

Definition classify (line : str) : category :=
  if str_eqb line [] then Blank
  else if _is_time_line line then TimeLine
  else if _is_location_line line then LocationLine
  else if _is_groups_line line then GroupsLine
  else if _is_ressources_line line then RessourcesLine
  else FreeText.

(** The lines up to the first blank line. *)
Fixpoint header_part (lines : list str) : list str :=
  match lines with
  | [] => []
  | line :: lines' =>
      if str_eqb line [] then [] else line :: header_part lines'
  end.

(** A line that holds one of the two status markers somewhere. *)
Definition has_status_marker (line : str) : Prop :=
  ∃ pre post, line = pre ++ u "Ændret!" ++ post
              ∨ line = pre ++ u "Aflyst!" ++ post.

(** A line that holds a location marker somewhere. *)
Definition has_location_marker (line : str) : Prop :=
  ∃ pre post, line = pre ++ u "Lokale: " ++ post
              ∨ line = pre ++ u "Lokaler: " ++ post.

(** The capture groups 1 to 4 of the time-range pattern on a line. *)
Definition time_tokens (line : str)
  : option (option str * option str * option str * option str) :=
  (fun m => (group m 1, group m 2, group m 3, group m 4))
    <$> search time_re line.

(** A captured token is usable when [strptime] accepts it. *)
Definition date_token_ok (o : option str) : bool :=
  match _get_date_from_match o with Ok _ => true | Raise _ => false end.
Definition time_token_ok (o : option str) : bool :=
  match _get_time_from_match o with Ok _ => true | Raise _ => false end.

Definition time_tokens_ok (line : str) : bool :=
  match time_tokens line with
  | Some (g1, g2, g3, g4) =>
      date_token_ok g1 && time_token_ok g2
      && date_token_ok g3 && time_token_ok g4
  | None => false
  end.

(** The summary and the description as they stand in [compose] when the
    groups are looked at: after the clean-up and the location, and
    after the resources. *)
Definition summary_before_groups (v : vars) : str :=
  if truthy_opt (location v)
  then _append_section_to_summary (default [] (location v))
         (clean_summary (summary v))
  else clean_summary (summary v).

Definition description_before_groups (v : vars) : str :=
  if truthy_opt (ressources v)
  then u "Ressoucer: " ++ default [] (ressources v) ++ [nl; nl]
       ++ description v
  else description v.

(** An empty description is handed on as [None]. *)
Definition normalize (description : str) : option str :=
  match description with
  | [] => None
  | _ => Some description
  end.

(** Scanning in order and keeping the first occurrence of each distinct
    Lesson: an entry is kept iff no equal entry comes earlier in the
    input. *)
Fixpoint first_occurrences_go (earlier l : list lesson.Lesson)
  : list lesson.Lesson :=
  match l with
  | [] => []
  | x :: l' =>
      (if bool_decide (x ∈ earlier) then [] else [x])
      ++ first_occurrences_go (earlier ++ [x]) l'
  end.

Definition first_occurrences (l : list lesson.Lesson)
  : list lesson.Lesson :=
  first_occurrences_go [] l.

(** The query parameters that name an identifier in a link. *)
Definition id_names : list str :=
  [u "absid"; u "ProeveholdId"; u "outboundCensorID"; u "aftaleid"].

(** A string of decimal digits, and a string that does not go on with
    one. *)
Definition all_digits (s : str) : Prop := Forall (fun c => is_digit c = true) s.
Definition no_digit_ahead (s : str) : Prop :=
  match s with
  | [] => True
  | c :: _ => is_digit c = false
  end.

(** [sep.join(l)] *)
Fixpoint join (sep : str) (l : list str) : str :=
  match l with
  | [] => []
  | [x] => x
  | x :: l' => x ++ sep ++ join sep l'
  end.

(** A list of lines without the blank lines at its start. *)
Fixpoint drop_blank (l : list str) : list str :=
  match l with
  | [] :: l' => drop_blank l'
  | _ => l
  end.

(** The free-text lines of a list of header lines. *)
Definition is_free_text (line : str) : bool :=
  match classify line with
  | FreeText => true
  | _ => false
  end.

(** The three shapes of the times of a block: none at all, one date for
    a header entry, or two points in time. *)
Definition times_well_formed (start end_ : option moment) (top : bool)
  : Prop :=
  (start = None ∧ end_ = None ∧ top = false)
  ∨ (∃ d, start = Some (DateOnly d) ∧ end_ = Some (DateOnly d) ∧ top = true)
  ∨ (∃ d1 t1 d2 t2, start = Some (DateTime d1 t1)
                    ∧ end_ = Some (DateTime d2 t2) ∧ top = false).

(** A date that the [datetime.date] constructor accepts. *)
Definition valid (d : date) : bool := valid_date (year d) (month d) (day d).

(** Month and day in their ranges, for any year, as [_ymd2ord] asserts. *)
Definition valid_md (y m d : Z) : bool :=
  ((1 <=? m) && (m <=? 12) && (1 <=? d)
   && (d <=? table DAYS_IN_MONTH m
             + (if (m =? 2) && is_leap_year y then 1 else 0)))%Z.

(** Month and day for the offset [n] of a day in its year, as
    [_ord2ymd] works them out, and the check that they are in range and
    lead back to the offset. *)
Definition month_day (leapyear : bool) (n : Z) : Z * Z :=
  (let month := Z.shiftr (n + 50) 5 in
   let preceding :=
     table DAYS_BEFORE_MONTH month
     + (if (2 <? month) && leapyear then 1 else 0) in
   if n <? preceding
   then (month - 1,
         n - (preceding
              - (table DAYS_IN_MONTH (month - 1)
                 + (if (month - 1 =? 2) && leapyear then 1 else 0))) + 1)
   else (month, n - preceding + 1))%Z.

Definition month_day_ok (leapyear : bool) (n : Z) : bool :=
  (let m := (month_day leapyear n).1 in
   let d := (month_day leapyear n).2 in
   (1 <=? m) && (m <=? 12) && (1 <=? d)
   && (d <=? table DAYS_IN_MONTH m
             + (if (m =? 2) && leapyear then 1 else 0))
   && (table DAYS_BEFORE_MONTH m
       + (if (2 <? m) && leapyear then 1 else 0) + d =? n + 1))%Z.

(** The two digits of a number below one hundred, and the check that
    the format "{0:02d}" gives them. *)
Definition two_digits (w : Z) : str :=
  [Z.to_N (48 + w / 10); Z.to_N (48 + w mod 10)]%Z.

Definition two_digits_ok (w : Z) : bool :=
  bool_decide (format_02d w = two_digits w).

(** A check on the [fuel] integers from [n] on. *)
Fixpoint all_from (f : Z → bool) (fuel : nat) (n : Z) : bool :=
  match fuel with
  | O => true
  | S k => f n && all_from f k (n + 1)%Z
  end.

(** The Monday that starts week 1 of the ISO year [y]: the Monday
    (ordinal 1, the first of January of year 1, is one) of the week that
    holds 4 January of [y]. *)
Definition week_one_monday (y monday : Z) : Prop :=
  (monday mod 7 = 1 ∧ monday ≤ ymd2ord y 1 4 ≤ monday + 6)%Z.

(** The day with ordinal [n] lies in week [w] of the ISO year [y]. *)
Definition in_iso_week (n y w : Z) : Prop :=
  (∃ monday next, week_one_monday y monday ∧ week_one_monday (y + 1) next
                  ∧ 1 ≤ w
                  ∧ monday + 7 * (w - 1) ≤ n < monday + 7 * w
                  ∧ n < next)%Z.

End Spec.
Import Spec.

(** ** Facts about strings *)

Section str_facts.

Lemma strip_prefix_Some (p s r : str) :
  strip_prefix p s = Some r ↔ s = p ++ r.
Proof.
  revert s. induction p as [|a p IH]; intros s; simpl.
  - split; [intros [= ->]|intros ->]; done.
  - destruct s as [|b s]; [done|].
    destruct (N.eqb_spec a b) as [->|Hne].
    + rewrite IH. split; [intros ->|intros [= ->]]; done.
    + split; [done|]. intros [= -> ->]. done.
Qed.

Lemma startswith_true (s p : str) :
  startswith s p = true ↔ ∃ r, s = p ++ r.
Proof.
  unfold startswith. destruct (strip_prefix p s) as [r|] eqn:E.
  - apply strip_prefix_Some in E. split; [eauto|done].
  - split; [done|]. intros [r Hr]. apply strip_prefix_Some in Hr. congruence.
Qed.

Lemma contains_true (sub s : str) :
  contains sub s = true ↔ ∃ pre post, s = pre ++ sub ++ post.
Proof.
  induction s as [|x s IH]; simpl.
  - rewrite orb_false_r, startswith_true. split.
    + intros [r Hr]. by exists [], r.
    + intros (pre & post & H). destruct pre; simpl in H; [eauto|done].
  - rewrite orb_true_iff, startswith_true, IH. split.
    + intros [[r Hr]|(pre & post & ->)].
      * by exists [], r.
      * by exists (x :: pre), post.
    + intros (pre & post & H). destruct pre as [|y pre]; simpl in H.
      * left. eauto.
      * right. injection H as -> ->. eauto.
Qed.

Lemma str_eqb_true (a b : str) : str_eqb a b = true ↔ a = b.
Proof. unfold str_eqb. apply bool_decide_eq_true. Qed.

Lemma str_eqb_false (a b : str) : str_eqb a b = false ↔ a ≠ b.
Proof. unfold str_eqb. apply bool_decide_eq_false. Qed.

End str_facts.

(** ** Facts about the matcher *)

Section re_facts.

Implicit Types (r : regex) (c : caps) (s : str) (m : caps * str).

Lemma elem_of_mtch_Seq r1 r2 c s m :
  m ∈ mtch (Seq r1 r2) c s ↔
  ∃ m1, m1 ∈ mtch r1 c s ∧ m ∈ mtch r2 m1.1 m1.2.
Proof.
  simpl. rewrite list_elem_of_bind. split; intros (m1 & ? & ?); eauto.
Qed.

Lemma elem_of_mtch_Grp i r c s m :
  m ∈ mtch (Grp i r) c s ↔
  ∃ m1, m1 ∈ mtch r c s
        ∧ m = ((i, take (length s - length m1.2) s) :: m1.1, m1.2).
Proof.
  simpl. rewrite list_elem_of_fmap. split; intros (m1 & ? & ?); eauto.
Qed.

Lemma elem_of_mtch_Opt r c s m :
  m ∈ mtch (Opt r) c s ↔ m ∈ mtch r c s ∨ m = (c, s).
Proof. simpl. by rewrite elem_of_app, list_elem_of_singleton. Qed.

Lemma elem_of_mtch_Alt r1 r2 c s m :
  m ∈ mtch (Alt r1 r2) c s ↔ m ∈ mtch r1 c s ∨ m ∈ mtch r2 c s.
Proof. simpl. by rewrite elem_of_app. Qed.

Lemma elem_of_mtch_Lit l c s m :
  m ∈ mtch (Lit l) c s ↔ m.1 = c ∧ s = l ++ m.2.
Proof.
  simpl. destruct (strip_prefix l s) as [s'|] eqn:E.
  - apply strip_prefix_Some in E. rewrite list_elem_of_singleton.
    destruct m as [c1 s1]; simpl. split.
    + by intros [= -> ->].
    + intros [-> H]. subst s. by apply app_inv_head in H as ->.
  - split; [by intros ?%elem_of_nil|]. intros [_ H].
    apply strip_prefix_Some in H. congruence.
Qed.

Lemma elem_of_star_cls cs c s m :
  m ∈ star_cls cs c s → m.1 = c ∧ length m.2 ≤ length s.
Proof.
  induction s as [|x s IH]; simpl.
  - by intros ->%list_elem_of_singleton.
  - destruct (in_cset cs x).
    + rewrite elem_of_app, list_elem_of_singleton.
      intros [H| ->]; [|done]. apply IH in H as [? ?]. split; [done|lia].
    + by intros ->%list_elem_of_singleton.
Qed.

Lemma star_cls_nonempty cs c s : star_cls cs c s ≠ [].
Proof.
  destruct s as [|x s]; simpl; [done|].
  destruct (in_cset cs x); [|done]. by destruct (star_cls cs c s).
Qed.

(** A match takes up at least [min_len r] code points. *)
Lemma mtch_length r c s m :
  m ∈ mtch r c s → length m.2 + min_len r ≤ length s.
Proof.
  revert c s m.
  induction r as [|cs|l|r1 IHr1 r2 IHr2|r1 IHr1 r2 IHr2|r IHr|cs|i r IHr];
    intros c s m.
  - simpl. intros ->%list_elem_of_singleton. simpl. lia.
  - simpl. destruct s as [|x s]; [by intros ?%elem_of_nil|].
    destruct (in_cset cs x); [|by intros ?%elem_of_nil].
    intros ->%list_elem_of_singleton. simpl. lia.
  - intros [_ ->]%elem_of_mtch_Lit. rewrite length_app. simpl. lia.
  - intros (m1 & H1 & H2)%elem_of_mtch_Seq.
    apply IHr1 in H1. apply IHr2 in H2. simpl. lia.
  - intros [H|H]%elem_of_mtch_Alt; [apply IHr1 in H|apply IHr2 in H];
      simpl; lia.
  - intros [H| ->]%elem_of_mtch_Opt; [apply IHr in H|]; simpl; lia.
  - simpl. intros [_ H]%elem_of_star_cls. lia.
  - intros (m1 & H1 & ->)%elem_of_mtch_Grp. apply IHr in H1. simpl. lia.
Qed.

(** A pattern without groups leaves the captures as they are. *)
Lemma mtch_no_groups r c s m :
  no_groups r = true → m ∈ mtch r c s → m.1 = c.
Proof.
  revert c s m.
  induction r as [|cs|l|r1 IHr1 r2 IHr2|r1 IHr1 r2 IHr2|r IHr|cs|i r IHr];
    intros c s m Hg; simpl in Hg.
  - by intros ->%list_elem_of_singleton.
  - simpl. destruct s as [|x s]; [by intros ?%elem_of_nil|].
    destruct (in_cset cs x); [|by intros ?%elem_of_nil].
    by intros ->%list_elem_of_singleton.
  - by intros [? _]%elem_of_mtch_Lit.
  - apply andb_true_iff in Hg as [Hg1 Hg2].
    intros (m1 & H1 & H2)%elem_of_mtch_Seq.
    apply IHr1 in H1; [|done]. apply IHr2 in H2; [|done]. congruence.
  - apply andb_true_iff in Hg as [Hg1 Hg2].
    intros [H|H]%elem_of_mtch_Alt; eauto.
  - intros [H| ->]%elem_of_mtch_Opt; eauto.
  - simpl. by intros [? _]%elem_of_star_cls.
  - done.
Qed.

Lemma match_elem_of r s m : match_ r s = Some m → m ∈ mtch r [] s.
Proof. unfold match_. apply head_Some_elem_of. Qed.

Lemma match_None r s : match_ r s = None ↔ mtch r [] s = [].
Proof. unfold match_. apply head_None. Qed.

(** [search] reports the first match at some position of the line... *)
Lemma search_Some r s c :
  search r s = Some c →
  ∃ pre suf rest, s = pre ++ suf ∧ match_ r suf = Some (c, rest).
Proof.
  induction s as [|x s IH]; simpl.
  - destruct (match_ r []) as [[c1 rest]|] eqn:E; [|done].
    intros [= <-]. by exists [], [], rest.
  - destruct (match_ r (x :: s)) as [[c1 rest]|] eqn:E.
    + intros [= <-]. by exists [], (x :: s), rest.
    + intros (pre & suf & rest & -> & H)%IH.
      by exists (x :: pre), suf, rest.
Qed.

(** ... and finds none only if the pattern matches at no position. *)
Lemma search_None r s pre suf :
  search r s = None → s = pre ++ suf → mtch r [] suf = [].
Proof.
  revert pre. induction s as [|x s IH]; intros pre; simpl.
  - destruct (match_ r []) eqn:E; [done|]. intros _ Hs.
    symmetry in Hs. apply app_eq_nil in Hs as [_ ->]. by apply match_None.
  - destruct (match_ r (x :: s)) eqn:E; [done|]. intros Hn Hs.
    destruct pre as [|y pre]; simpl in Hs.
    + subst suf. by apply match_None.
    + injection Hs as -> ->. by apply (IH pre).
Qed.

Lemma search_is_Some r s pre suf :
  s = pre ++ suf → mtch r [] suf ≠ [] → is_Some (search r s).
Proof.
  intros Hs Hm. destruct (search r s) eqn:E; [done|].
  by apply (search_None _ _ pre suf) in E.
Qed.

Lemma search_true_iff r s :
  is_Some (search r s) ↔ ∃ pre suf, s = pre ++ suf ∧ mtch r [] suf ≠ [].
Proof.
  split.
  - intros [c (pre & suf & rest & -> & H)%search_Some].
    exists pre, suf. split; [done|]. apply match_elem_of in H.
    intros E. rewrite E in H. by apply elem_of_nil in H.
  - intros (pre & suf & -> & H). by eapply search_is_Some.
Qed.

Lemma matched_true {A} (o : option A) :
  match o with Some _ => true | None => false end = true ↔ is_Some o.
Proof. destruct o; split; try done; by intros [? ?]. Qed.

Lemma nonempty_elem_of {A} (l : list A) : l ≠ [] ↔ ∃ x, x ∈ l.
Proof.
  destruct l as [|x l].
  - split; [done|]. by intros [x ?%elem_of_nil].
  - split; [|done]. intros _. exists x. left.
Qed.

Lemma elem_of_mtch_Cls cs c s m :
  m ∈ mtch (Cls cs) c s ↔
  ∃ x, s = x :: m.2 ∧ in_cset cs x = true ∧ m.1 = c.
Proof.
  simpl. destruct s as [|x s].
  - rewrite elem_of_nil. split; [done|]. by intros (x & ? & _).
  - destruct (in_cset cs x) eqn:E.
    + rewrite list_elem_of_singleton. destruct m as [c1 s1]; simpl. split.
      * intros [= -> ->]. eauto.
      * intros (y & [= -> ->] & _ & ->). done.
    + rewrite elem_of_nil. split; [done|].
      intros (y & [= -> ->] & ? & _). congruence.
Qed.

(** A payload pattern: a marker and then group 1 around [cs*]. *)
Lemma search_payload r0 cs line :
  is_Some (search r0 line) →
  ∃ c p, search (Seq r0 (Grp 1 (Star cs))) line = Some c
         ∧ group c 1 = Some p.
Proof.
  intros (pre & suf & Hl & Hm)%search_true_iff.
  destruct (search_is_Some (Seq r0 (Grp 1 (Star cs))) line pre suf Hl)
    as [c Hc].
  { apply nonempty_elem_of in Hm as [m1 Hm1]. apply nonempty_elem_of.
    destruct (nonempty_elem_of (star_cls cs m1.1 m1.2)) as [[m2 Hm2] _];
      [apply star_cls_nonempty|].
    eexists. apply elem_of_mtch_Seq. exists m1. split; [done|].
    apply elem_of_mtch_Grp. exists m2. split; [exact Hm2|done]. }
  exists c. apply search_Some in Hc as Hc'.
  destruct Hc' as (pre' & suf' & rest & _ & Hh%match_elem_of).
  apply elem_of_mtch_Seq in Hh as (m1 & _ & Hh).
  apply elem_of_mtch_Grp in Hh as (m2 & _ & [= -> _]).
  eexists. split; [done|]. simpl. done.
Qed.

End re_facts.

(** ** Facts about the classifiers *)

Section classifier_facts.

Implicit Types (line pre post : str).

Lemma is_location_line_iff line :
  _is_location_line line = true ↔
  ∃ pre post, line = pre ++ u "Lokale: " ++ post
              ∨ line = pre ++ u "Lokaler: " ++ post.
Proof.
  unfold _is_location_line.
  rewrite matched_true, search_true_iff. split.
  - intros (pre & suf & -> & [m Hm]%nonempty_elem_of). exists pre.
    apply elem_of_mtch_Seq in Hm as (m1 & [_ H1]%elem_of_mtch_Lit & Hm).
    apply elem_of_mtch_Seq in Hm as (m2 & H2 & [_ H3]%elem_of_mtch_Lit).
    apply elem_of_mtch_Opt in H2 as [H2| ->].
    + apply elem_of_mtch_Cls in H2 as (x & H2 & Hx%N.eqb_eq & _).
      subst x. exists m.2. right. rewrite H1, H2, H3. done.
    + exists m.2. left. rewrite H1. simpl in H3. rewrite H3. done.
  - intros (pre & post & [->| ->]); exists pre; eexists; (split; [done|]);
      vm_compute; done.
Qed.

Lemma is_status_line_iff line :
  _is_status_line line = true ↔
  ∃ pre post, line = pre ++ u "Ændret!" ++ post
              ∨ line = pre ++ u "Aflyst!" ++ post.
Proof.
  unfold _is_status_line.
  rewrite matched_true, search_true_iff. split.
  - intros (pre & suf & -> & [m Hm]%nonempty_elem_of). exists pre, m.2.
    apply elem_of_mtch_Alt in Hm as [[_ ->]%elem_of_mtch_Lit
                                    |[_ ->]%elem_of_mtch_Lit]; eauto.
  - intros (pre & post & [->| ->]); exists pre; eexists; (split; [done|]);
      vm_compute; done.
Qed.

(** The lookup in [LESSON_STATUS] accepts the two markers only. *)
Lemma get_status_from_line line :
  (line = u "Ændret!" ∧ _get_status_from_line line = Ok changed)
  ∨ (line = u "Aflyst!" ∧ _get_status_from_line line = Ok cancelled)
  ∨ (line ≠ u "Ændret!" ∧ line ≠ u "Aflyst!"
     ∧ _get_status_from_line line = Raise (InvalidStatusError line)).
Proof.
  unfold _get_status_from_line, LESSON_STATUS. simpl.
  destruct (decide (line = u "Ændret!")) as [->|H1];
    [left; split; [done|by vm_compute]|].
  destruct (decide (line = u "Aflyst!")) as [->|H2];
    [right; left; split; [done|by vm_compute]|].
  right; right. split_and!; [done..|].
  rewrite !bool_decide_eq_false_2; [done|..]; intros [= ?]; done.
Qed.

(** The payload extractors raise on no line that their classifier
    accepts. *)
Lemma get_location_total line :
  _is_location_line line = true →
  ∃ p, _get_location_from_line line = Ok (Some p).
Proof.
  unfold _is_location_line, _get_location_from_line. intros H.
  destruct (search_payload location_marker_re Any line)
    as (c & p & Hc & Hp).
  { by apply matched_true. }
  change (Seq location_marker_re (Grp 1 (Star Any))) with location_re in Hc.
  rewrite Hc, Hp. eauto.
Qed.

Lemma search_Lit_startswith l line :
  startswith line l = true → is_Some (search (Lit l) line).
Proof.
  intros [r ->]%startswith_true. apply (search_is_Some _ _ [] (l ++ r));
    [done|].
  apply nonempty_elem_of. exists ([], r). by apply elem_of_mtch_Lit.
Qed.

Lemma get_groups_total line :
  _is_groups_line line = true →
  ∃ p, _get_groups_from_line line = Ok (Some p).
Proof.
  unfold _is_groups_line, _get_groups_from_line.
  intros H%search_Lit_startswith.
  destruct (search_payload _ Any line H) as (c & p & Hc & Hp).
  change (search groups_re line = Some c) in Hc.
  rewrite Hc, Hp. eauto.
Qed.

Lemma get_ressources_total line :
  _is_ressources_line line = true →
  ∃ p, _get_ressources_from_line line = Ok (Some p).
Proof.
  unfold _is_ressources_line, _get_ressources_from_line.
  intros H%search_Lit_startswith.
  destruct (search_payload _ Any line H) as (c & p & Hc & Hp).
  change (search ressources_re line = Some c) in Hc.
  rewrite Hc, Hp. eauto.
Qed.

(** A group around a pattern without groups that cannot match the
    empty string binds a non-empty text. *)
Lemma elem_of_mtch_Grp_plain i r (c : caps) (s : str) (m : caps * str) :
  no_groups r = true → 0 < min_len r → m ∈ mtch (Grp i r) c s →
  ∃ g : str, g ≠ [] ∧ m.1 = (i, g) :: c.
Proof.
  intros Hg Hl (m1 & H1 & ->)%elem_of_mtch_Grp.
  pose proof (mtch_length _ _ _ _ H1) as Hlen.
  apply mtch_no_groups in H1 as ->; [|done].
  eexists. split; [|done]. intros E%(f_equal length).
  rewrite length_take in E. simpl in E. lia.
Qed.

(** The line classifier for time ranges accepts only lines on which
    the pattern of the parser matches too. *)
Lemma time_line_searchable line :
  _is_time_line line = true → is_Some (search time_re line).
Proof.
  unfold _is_time_line. rewrite matched_true, search_true_iff.
  intros (pre & suf & -> & [m Hm]%nonempty_elem_of).
  apply elem_of_mtch_Seq in Hm as (m1 & H1 & _).
  apply (search_is_Some _ _ pre suf); [done|]. apply nonempty_elem_of.
  eexists. apply elem_of_mtch_Seq. eexists. split.
  - apply elem_of_mtch_Grp. eauto.
  - apply elem_of_mtch_Opt. by right.
Qed.

(** Which of the four groups of the parser's pattern take part in a
    match: the start date always, the two times together or not at
    all, the end date only along with the times. *)
Lemma time_re_groups line c :
  search time_re line = Some c →
  ∃ g1 : str, g1 ≠ [] ∧ group c 1 = Some g1
    ∧ ((group c 2 = None ∧ group c 3 = None ∧ group c 4 = None)
       ∨ (∃ g2 g4 : str, g2 ≠ [] ∧ g4 ≠ []
            ∧ group c 2 = Some g2 ∧ group c 4 = Some g4
            ∧ (group c 3 = None
               ∨ ∃ g3 : str, g3 ≠ [] ∧ group c 3 = Some g3))).
Proof.
  intros (pre & suf & rest & _ & Hm%match_elem_of)%search_Some.
  apply elem_of_mtch_Seq in Hm as (m1 & H1 & Hm).
  apply elem_of_mtch_Grp_plain in H1 as (g1 & Hg1 & E1);
    [|done|vm_compute; lia].
  exists g1. split; [done|].
  apply elem_of_mtch_Opt in Hm as [Hm|[= -> _]].
  2: { rewrite E1. simpl. eauto. }
  apply elem_of_mtch_Seq in Hm as (m2 & [E2 _]%elem_of_mtch_Lit & Hm).
  apply elem_of_mtch_Seq in Hm as (m3 & H3 & Hm).
  apply elem_of_mtch_Grp_plain in H3 as (g2 & Hg2 & E3);
    [|done|vm_compute; lia].
  apply elem_of_mtch_Seq in Hm as (m4 & [E4 _]%elem_of_mtch_Lit & Hm).
  apply elem_of_mtch_Seq in Hm as (m5 & H5 & Hm).
  apply elem_of_mtch_Seq in Hm as (m6 & H6 & Hm).
  apply (mtch_no_groups (Opt (Lit [32%N]))) in H6 as E6; [|done].
  apply elem_of_mtch_Grp_plain in Hm as (g4 & Hg4 & E7);
    [|done|vm_compute; lia].
  simpl in E7. rewrite E6 in E7. rewrite E3, E2, E1 in E4. subst c.
  apply elem_of_mtch_Opt in H5 as [H5| ->].
  - apply elem_of_mtch_Grp_plain in H5 as (g3 & Hg3 & ->);
      [|done|vm_compute; lia].
    rewrite E4. simpl. split; [done|]. right. exists g2, g4.
    split_and!; [done..|]. right. by exists g3.
  - simpl. rewrite E4. simpl. split; [done|]. right. exists g2, g4.
    split_and!; [done..|]. by left.
Qed.

End classifier_facts.

(** ** The schedule merger *)

Section merger.

Implicit Types (l schedule : list lesson.Lesson) (x : lesson.Lesson).

Lemma filter_snoc l x :
  _filter_for_duplicates (l ++ [x]) =
  if bool_decide (x ∈ _filter_for_duplicates l)
  then _filter_for_duplicates l
  else _filter_for_duplicates l ++ [x].
Proof.
  unfold _filter_for_duplicates. rewrite foldl_app. simpl.
  repeat case_bool_decide; done.
Qed.

Lemma filter_elem_of l x : x ∈ _filter_for_duplicates l ↔ x ∈ l.
Proof.
  induction l as [|y l IH] using rev_ind; [done|].
  rewrite filter_snoc. case_bool_decide as Hy.
  - rewrite elem_of_app, list_elem_of_singleton, IH.
    split; [tauto|]. intros [?| ->]; [done|]. by apply IH.
  - rewrite !elem_of_app, IH. done.
Qed.

Lemma filter_NoDup l : NoDup (_filter_for_duplicates l).
Proof.
  induction l as [|y l IH] using rev_ind; [constructor|].
  rewrite filter_snoc. case_bool_decide as Hy; [done|].
  apply NoDup_app. split_and!; [done| |apply NoDup_singleton].
  intros z Hz ->%list_elem_of_singleton. done.
Qed.

Lemma first_occurrences_go_snoc earlier l x :
  first_occurrences_go earlier (l ++ [x]) =
  first_occurrences_go earlier l
  ++ (if bool_decide (x ∈ earlier ++ l) then [] else [x]).
Proof.
  revert earlier. induction l as [|y l IH]; intros earlier; simpl.
  - by rewrite !app_nil_r.
  - rewrite IH, <- !(assoc_L (++)). done.
Qed.

Lemma filter_first_occurrences l :
  _filter_for_duplicates l = first_occurrences l.
Proof.
  unfold first_occurrences.
  induction l as [|y l IH] using rev_ind; [done|].
  rewrite filter_snoc, first_occurrences_go_snoc, <- IH. simpl.
  rewrite (bool_decide_ext (y ∈ _filter_for_duplicates l) (y ∈ l))
    by apply filter_elem_of.
  case_bool_decide; by rewrite ?app_nil_r.
Qed.

Lemma filter_sublist l : sublist (_filter_for_duplicates l) l.
Proof.
  induction l as [|y l IH] using rev_ind; [done|].
  rewrite filter_snoc. case_bool_decide.
  - by apply sublist_inserts_r.
  - by apply sublist_app.
Qed.

Lemma filter_fixed l : NoDup l → _filter_for_duplicates l = l.
Proof.
  induction l as [|y l IH] using rev_ind; [done|].
  intros (Hl & Hy & _)%NoDup_app. rewrite filter_snoc, IH by done.
  rewrite bool_decide_eq_false_2; [done|].
  intros Hin. apply (Hy y); [done|]. by apply list_elem_of_singleton.
Qed.

(** C3: the merger keeps exactly the first occurrence of each distinct
    Lesson, in the order of the input: its output is the list of the
    entries that no equal entry precedes, it holds no Lesson twice, it
    holds the same Lessons as the input, and it is a subsequence of the
    input. *)
Theorem merger_keeps_first_occurrences schedule :
  _filter_for_duplicates schedule = first_occurrences schedule
  ∧ NoDup (_filter_for_duplicates schedule)
  ∧ (∀ x, x ∈ _filter_for_duplicates schedule ↔ x ∈ schedule)
  ∧ sublist (_filter_for_duplicates schedule) schedule.
Proof.
  split_and!.
  - apply filter_first_occurrences.
  - apply filter_NoDup.
  - intros x. apply filter_elem_of.
  - apply filter_sublist.
Qed.

(** C9: the merger is idempotent. *)
Theorem merger_idempotent schedule :
  _filter_for_duplicates (_filter_for_duplicates schedule)
  = _filter_for_duplicates schedule.
Proof. apply filter_fixed, filter_NoDup. Qed.

End merger.

(** ** The time-range parser *)

Section time_range.

Implicit Types (line : str).

Lemma date_token_some (g : str) :
  g ≠ [] → date_token_ok (Some g) = true →
  ∃ d, strptime_date g = Ok d ∧ _get_date_from_match (Some g) = Ok (Some d).
Proof.
  unfold date_token_ok, _get_date_from_match. destruct g as [|x g]; [done|].
  intros _. simpl. destruct (strptime_date (x :: g)) as [d|e]; [|done].
  eauto.
Qed.

Lemma time_token_some (g : str) :
  g ≠ [] → time_token_ok (Some g) = true →
  ∃ t, strptime_time g = Ok t ∧ _get_time_from_match (Some g) = Ok (Some t).
Proof.
  unfold time_token_ok, _get_time_from_match. destruct g as [|x g]; [done|].
  intros _. simpl. destruct (strptime_time (x :: g)) as [t|e]; [|done].
  eauto.
Qed.

(** C1, as the code has it: on a line that [_is_time_line] accepts and
    whose captured date and time tokens [strptime] accepts, the parser
    returns a start, an end and [is_top] such that: without an end-date
    token the end date is the start date; without an end-time token the
    end is a date only; without a start-time token start and end are the
    start date only and [is_top] is true; with both time tokens start
    and end combine the respective dates and times (and [is_top] is
    false). *)
Theorem time_range_parser line :
  _is_time_line line = true → time_tokens_ok line = true →
  ∃ (g1 : str) (g2 g3 g4 : option str) d1 start end_ top,
    time_tokens line = Some (Some g1, g2, g3, g4)
    ∧ strptime_date g1 = Ok d1
    ∧ _get_time_from_line line = Ok (Some start, Some end_, top)
    ∧ (g3 = None → date_of end_ = d1)
    ∧ (g4 = None → end_ = DateOnly (date_of end_))
    ∧ (g2 = None → start = DateOnly d1 ∧ end_ = DateOnly d1 ∧ top = true)
    ∧ (∀ t2 t4, g2 = Some t2 → g4 = Some t4 →
         ∃ a b, strptime_time t2 = Ok a ∧ strptime_time t4 = Ok b
           ∧ start = DateTime d1 a ∧ top = false
           ∧ ((g3 = None ∧ end_ = DateTime d1 b)
              ∨ ∃ t3 d3, g3 = Some t3 ∧ strptime_date t3 = Ok d3
                         ∧ end_ = DateTime d3 b)).
Proof.
  intros Hl Hok. destruct (time_line_searchable line Hl) as [c Hc].
  destruct (time_re_groups line c Hc) as (g1 & Hg1 & G1 & Hcases).
  unfold time_tokens_ok, time_tokens in *.
  unfold _get_time_from_line. rewrite Hc in *. simpl in Hok. simpl.
  rewrite G1 in *.
  apply andb_true_iff in Hok as [Hok Ok4].
  apply andb_true_iff in Hok as [Hok Ok3].
  apply andb_true_iff in Hok as [Ok1 Ok2].
  destruct (date_token_some g1 Hg1 Ok1) as (d1 & P1 & ->).
  exists g1, (group c 2), (group c 3), (group c 4), d1. simpl.
  destruct Hcases as [(G2 & G3 & G4)|(g2 & g4 & Hg2 & Hg4 & G2 & G4 & G3)].
  - rewrite G2, G3, G4. simpl.
    exists (DateOnly d1), (DateOnly d1), true. split_and!; done.
  - rewrite G2, G4 in *.
    destruct (time_token_some g2 Hg2 Ok2) as (a & P2 & ->).
    destruct (time_token_some g4 Hg4 Ok4) as (b & P4 & ->). simpl.
    destruct G3 as [G3|(g3 & Hg3 & G3)]; rewrite G3 in *.
    + simpl. exists (DateTime d1 a), (DateTime d1 b), false.
      split_and!; try done.
      intros t2 t4 [= <-] [= <-]. exists a, b. split_and!; auto.
    + destruct (date_token_some g3 Hg3 Ok3) as (d3 & P3 & ->). simpl.
      exists (DateTime d1 a), (DateTime d3 b), false.
      split_and!; try done.
      intros t2 t4 [= <-] [= <-]. exists a, b. split_and!; eauto 10.
Qed.

Lemma time_range_parser_witness :
  ∃ (g1 : str) (g2 g3 g4 : option str) d1 start end_ top,
    time_tokens (u "8/4-2016 17:30 til 9/4-2016 01:00")
      = Some (Some g1, g2, g3, g4)
    ∧ strptime_date g1 = Ok d1
    ∧ _get_time_from_line (u "8/4-2016 17:30 til 9/4-2016 01:00")
        = Ok (Some start, Some end_, top)
    ∧ (g3 = None → date_of end_ = d1)
    ∧ (g4 = None → end_ = DateOnly (date_of end_))
    ∧ (g2 = None → start = DateOnly d1 ∧ end_ = DateOnly d1 ∧ top = true)
    ∧ (∀ t2 t4, g2 = Some t2 → g4 = Some t4 →
         ∃ a b, strptime_time t2 = Ok a ∧ strptime_time t4 = Ok b
           ∧ start = DateTime d1 a ∧ top = false
           ∧ ((g3 = None ∧ end_ = DateTime d1 b)
              ∨ ∃ t3 d3, g3 = Some t3 ∧ strptime_date t3 = Ok d3
                         ∧ end_ = DateTime d3 b)).
Proof.
  apply (time_range_parser (u "8/4-2016 17:30 til 9/4-2016 01:00"));
    vm_compute; reflexivity.
Defined.

(** C1 does not hold as it is written: a line can be recognized as a
    time-range line and still make the parser raise, because the date
    that it names does not exist. *)
Lemma time_range_parser_raises :
  _is_time_line (u "31/2-2016 Hele dagen") = true
  ∧ _get_time_from_line (u "31/2-2016 Hele dagen") = Raise ValueError.
Proof. split; vm_compute; reflexivity. Qed.

(** [strptime] fails with a [ValueError] only. *)
Lemma strptime_date_error (g : str) e :
  strptime_date g = Raise e → e = ValueError.
Proof.
  unfold strptime_date, strptime_fields, field.
  destruct (match_ date_format_re g) as [[c [|? ?]]|]; simpl;
    try by intros [= <-].
  repeat (match goal with
          | |- context [group c ?i] => destruct (group c i) as [?|]; simpl
          | |- context [int ?x] => destruct (int x) as [?|]; simpl
          end; try by intros [= <-]).
  destruct (valid_date _ _ _); [done|]. by intros [= <-].
Qed.

Lemma strptime_time_error (g : str) e :
  strptime_time g = Raise e → e = ValueError.
Proof.
  unfold strptime_time, strptime_fields, field.
  destruct (match_ time_format_re g) as [[c [|? ?]]|]; simpl;
    try by intros [= <-].
  repeat (match goal with
          | |- context [group c ?i] => destruct (group c i) as [?|]; simpl
          | |- context [int ?x] => destruct (int x) as [?|]; simpl
          end; try by intros [= <-]).
Qed.

Lemma get_date_from_match_cases (g : str) :
  g ≠ [] →
  (∃ d, _get_date_from_match (Some g) = Ok (Some d))
  ∨ _get_date_from_match (Some g) = Raise ValueError.
Proof.
  unfold _get_date_from_match. destruct g as [|x g]; [done|]. intros _.
  simpl. destruct (strptime_date (x :: g)) as [d|e] eqn:E; simpl; [eauto|].
  apply strptime_date_error in E as ->. by right.
Qed.

Lemma get_time_from_match_cases (g : str) :
  g ≠ [] →
  (∃ t, _get_time_from_match (Some g) = Ok (Some t))
  ∨ _get_time_from_match (Some g) = Raise ValueError.
Proof.
  unfold _get_time_from_match. destruct g as [|x g]; [done|]. intros _.
  simpl. destruct (strptime_time (x :: g)) as [t|e] eqn:E; simpl; [eauto|].
  apply strptime_time_error in E as ->. by right.
Qed.

(** On a line that the classifier accepts, the parser returns or fails
    with the [ValueError] of [strptime]; its own error is out of reach. *)
Lemma get_time_from_line_cases line :
  _is_time_line line = true →
  (∃ r, _get_time_from_line line = Ok r)
  ∨ _get_time_from_line line = Raise ValueError.
Proof.
  intros Hl. destruct (time_line_searchable line Hl) as [c Hc].
  destruct (time_re_groups line c Hc) as (g1 & Hg1 & G1 & Hcases).
  unfold _get_time_from_line. rewrite Hc, G1.
  destruct (get_date_from_match_cases g1 Hg1) as [[d1 ->]| ->];
    [|by right]. simpl.
  destruct Hcases as [(G2 & G3 & G4)|(g2 & g4 & Hg2 & Hg4 & G2 & G4 & G3)].
  { rewrite G2, G3, G4. simpl. eauto. }
  rewrite G2, G4.
  destruct (get_time_from_match_cases g2 Hg2) as [[t2 ->]| ->];
    [|by right]. simpl.
  destruct G3 as [G3|(g3 & Hg3 & G3)]; rewrite G3.
  - simpl.
    destruct (get_time_from_match_cases g4 Hg4) as [[t4 ->]| ->];
      [|by right]. simpl. eauto.
  - destruct (get_date_from_match_cases g3 Hg3) as [[d3 ->]| ->];
      [|by right]. simpl.
    destruct (get_time_from_match_cases g4 Hg4) as [[t4 ->]| ->];
      [|by right]. simpl. eauto.
Qed.

End time_range.

(** ** The lesson extractor *)

Section extractor.

Implicit Types (title line event_title : str) (v : vars) (i : info).

(** [step] treats a header line according to its category. *)
Lemma step_classify v line :
  header_section v = true →
  step v line =
  match classify line with
  | Blank => Ok (end_header v)
  | TimeLine => t ← _get_time_from_line line; Ok (set_time t v)
  | LocationLine => l ← _get_location_from_line line; Ok (set_location l v)
  | GroupsLine => g ← _get_groups_from_line line; Ok (set_groups g v)
  | RessourcesLine =>
      r ← _get_ressources_from_line line; Ok (set_ressources r v)
  | FreeText =>
      Ok (set_summary (_append_section_to_summary line (summary v)) v)
  end.
Proof.
  intros Hh. unfold step, classify. rewrite Hh.
  destruct (str_eqb line []); [done|].
  destruct (_is_time_line line); [done|].
  destruct (_is_location_line line); [done|].
  destruct (_is_groups_line line); [done|].
  destruct (_is_ressources_line line); done.
Qed.

Lemma normalize_eq (d : str) :
  (if str_eqb d [] then None else Some d) = normalize d.
Proof. by destruct d. Qed.

(** The errors that can come out of the loop and of the extraction. *)
Lemma step_errors v line e : step v line = Raise e → e = ValueError.
Proof.
  destruct (header_section v) eqn:Hh; [|unfold step; by rewrite Hh].
  rewrite step_classify by done. unfold classify.
  destruct (str_eqb line []); [done|].
  destruct (_is_time_line line) eqn:E1.
  { destruct (get_time_from_line_cases line E1) as [[r ->]| ->]; [done|].
    by intros [= <-]. }
  destruct (_is_location_line line) eqn:E2.
  { by apply get_location_total in E2 as [p ->]. }
  destruct (_is_groups_line line) eqn:E3.
  { by apply get_groups_total in E3 as [p ->]. }
  destruct (_is_ressources_line line) eqn:E4.
  { by apply get_ressources_total in E4 as [p ->]. }
  done.
Qed.

Lemma loop_errors lines v e : loop v lines = Raise e → e = ValueError.
Proof.
  revert v. induction lines as [|line lines IH]; intros v; simpl; [done|].
  destruct (step v line) as [v'|e'] eqn:E; simpl.
  - apply IH.
  - intros [= <-]. by apply step_errors in E.
Qed.

Lemma leading_errors lines e :
  leading lines = Raise e → ∃ l0, head lines = Some l0
                                   ∧ e = InvalidStatusError l0.
Proof.
  destruct lines as [|l0 [|l1 rest]]; simpl; [done..|].
  destruct (_is_status_line l0); simpl.
  - destruct (get_status_from_line l0)
      as [[-> E]|[[-> E]|(_ & _ & E)]]; rewrite E; simpl.
    + by destruct (_is_time_line l1).
    + by destruct (_is_time_line l1).
    + intros [= <-]. eauto.
  - by destruct (_is_time_line l0).
Qed.

(** The extraction of a block fails in two ways only: with the
    invalid-status error for its leading line, or with a [ValueError] for
    the date or the time of a time-range line. *)
Lemma extract_errors title e :
  _extract_lesson_info title = Raise e →
  e = ValueError
  ∨ ∃ l0, head (splitlines title) = Some l0 ∧ e = InvalidStatusError l0.
Proof.
  unfold _extract_lesson_info.
  destruct (leading (splitlines title)) as [[[st t] o]|e'] eqn:El; simpl.
  - destruct (loop vars0 (drop o (splitlines title))) as [v|e'] eqn:E;
      simpl; [done|].
    intros [= <-]. left. by apply loop_errors in E.
  - intros [= <-]. right. by apply leading_errors.
Qed.

Lemma compose_summary status event_title v :
  info_summary (compose status event_title v) =
  if truthy_opt (groups v) then
    if contains (u "Alle") (default [] (groups v))
    then _prepend_section_to_summary event_title
           (_prepend_section_to_summary (default [] (groups v))
              (summary_before_groups v))
    else _prepend_section_to_summary (default [] (groups v))
           (summary_before_groups v)
  else _prepend_section_to_summary event_title (summary_before_groups v).
Proof.
  unfold compose, summary_before_groups.
  destruct (truthy_opt (groups v)); [|done].
  by destruct (contains (u "Alle") (default [] (groups v))).
Qed.

Lemma compose_description status event_title v :
  info_description (compose status event_title v) =
  normalize
    (if truthy_opt (groups v)
        && negb (contains (u "Alle") (default [] (groups v)))
     then event_title ++ [nl; nl] ++ description_before_groups v
     else description_before_groups v).
Proof.
  unfold compose, description_before_groups.
  destruct (truthy_opt (groups v)); simpl; [|apply normalize_eq].
  destruct (contains (u "Alle") (default [] (groups v))); simpl;
    apply normalize_eq.
Qed.

(** C2: when the groups of a block are non-empty, they are put in front
    of the summary, joined to what the summary holds by the bullet
    separator; then, if the groups do not contain "Alle", the event
    title and two newlines go in front of the description and the
    summary gets no title, and if they do contain "Alle" the event title
    goes in front of the summary with the bullet separator and the
    description gets nothing.  With empty groups the event title goes in
    front of the summary. *)
Theorem groups_and_title_composition title status event_title offset v :
  leading (splitlines title) = Ok (status, event_title, offset) →
  loop vars0 (drop offset (splitlines title)) = Ok v →
  ∃ i, _extract_lesson_info title = Ok i
    ∧ (∀ g : str, groups v = Some g → g ≠ [] →
         (contains (u "Alle") g = false →
            info_summary i =
              g ++ (if truthy (summary_before_groups v) then SPACER else [])
                ++ summary_before_groups v
            ∧ info_description i =
                Some (event_title ++ [nl; nl] ++ description_before_groups v))
         ∧ (contains (u "Alle") g = true →
              info_summary i =
                event_title ++ SPACER ++ g
                ++ (if truthy (summary_before_groups v) then SPACER else [])
                ++ summary_before_groups v
              ∧ info_description i
                = normalize (description_before_groups v)))
    ∧ (truthy_opt (groups v) = false →
         info_summary i =
           event_title
           ++ (if truthy (summary_before_groups v) then SPACER else [])
           ++ summary_before_groups v
         ∧ info_description i = normalize (description_before_groups v)).
Proof.
  intros Hlead Hloop. unfold _extract_lesson_info.
  rewrite Hlead. simpl. rewrite Hloop. simpl.
  eexists. split; [done|].
  rewrite compose_summary, compose_description. split.
  - intros g Hg Hne. rewrite Hg. simpl.
    assert (truthy g = true) as -> by by destruct g.
    split; intros ->; simpl.
    + split; [done|]. by destruct event_title.
    + split; [|done]. unfold _prepend_section_to_summary. by destruct g.
  - intros ->. done.
Qed.

Lemma groups_and_title_composition_witness :
  ∃ i, _extract_lesson_info
         (u "Math" ++ [nl] ++ u "Hold: Alle 1a, 1b" ++ [nl] ++ u "Lokale: 2")
       = Ok i
     ∧ info_summary i = u "Math • Alle 1a, 1b • 2"
     ∧ info_description i = None.
Proof.
  destruct (groups_and_title_composition
              (u "Math" ++ [nl] ++ u "Hold: Alle 1a, 1b" ++ [nl]
                 ++ u "Lokale: 2")
              None (u "Math") 1
              (mkvars [] [] (Some (u "Alle 1a, 1b")) (Some [])
                 (Some (u "2")) None None false true))
    as (i & Hi & Hg & _); [vm_compute; reflexivity..|].
  exists i. split; [exact Hi|].
  destruct (Hg (u "Alle 1a, 1b")) as [_ Ha];
    [vm_compute; reflexivity|vm_compute; discriminate|].
  apply Ha. vm_compute. reflexivity.
Defined.

Lemma compose_status status event_title v :
  info_status (compose status event_title v) = status.
Proof.
  unfold compose. destruct (truthy_opt (groups v)); [|done].
  by destruct (contains (u "Alle") (default [] (groups v))).
Qed.

Lemma compose_times status event_title v :
  info_start_time (compose status event_title v) = start_time v
  ∧ info_end_time (compose status event_title v) = end_time v
  ∧ info_is_top (compose status event_title v) = is_top v.
Proof.
  unfold compose. destruct (truthy_opt (groups v)); [|done].
  by destruct (contains (u "Alle") (default [] (groups v))).
Qed.

(** What [leading] yields, by the shape of the block. *)
Lemma leading_short lines :
  length lines < 2 → leading lines = Ok (None, [], 0).
Proof.
  destruct lines as [|l0 [|l1 rest]]; simpl; [done..|lia].
Qed.

Lemma leading_no_marker l0 l1 rest :
  _is_status_line l0 = false →
  ∃ t o, leading (l0 :: l1 :: rest) = Ok (None, t, o).
Proof.
  intros H. simpl. rewrite H. simpl.
  destruct (_is_time_line l0); simpl; eauto.
Qed.

Lemma leading_Some lines s t o :
  leading lines = Ok (Some s, t, o) →
  ∃ l1 rest,
    (lines = u "Ændret!" :: l1 :: rest ∧ s = changed)
    ∨ (lines = u "Aflyst!" :: l1 :: rest ∧ s = cancelled).
Proof.
  destruct lines as [|l0 [|l1 rest]]; simpl; [done..|].
  destruct (_is_status_line l0); simpl.
  - destruct (get_status_from_line l0)
      as [[-> E]|[[-> E]|(_ & _ & E)]]; rewrite E; simpl.
    + destruct (_is_time_line l1); simpl; intros [= <- _ _]; eauto.
    + destruct (_is_time_line l1); simpl; intros [= <- _ _]; eauto.
    + done.
  - destruct (_is_time_line l0); simpl; done.
Qed.

Lemma leading_marker l0 l1 rest s :
  _get_status_from_line l0 = Ok s → _is_status_line l0 = true →
  ∃ t o, leading (l0 :: l1 :: rest) = Ok (Some s, t, o).
Proof.
  intros E H. simpl. rewrite H, E. simpl.
  destruct (_is_time_line l1); simpl; eauto.
Qed.

Lemma extract_status title i :
  _extract_lesson_info title = Ok i →
  ∃ t o, leading (splitlines title) = Ok (info_status i, t, o).
Proof.
  unfold _extract_lesson_info.
  destruct (leading (splitlines title)) as [[[st t] o]|e]; simpl; [|done].
  destruct (loop vars0 (drop o (splitlines title))) as [v|e]; simpl;
    [|done].
  intros [= <-]. rewrite compose_status. eauto.
Qed.

(** C4, as the code has it: the extracted status is "changed" or
    "cancelled" only when the block has two lines or more and its
    leading line is, in full, the corresponding marker; a block whose
    leading line is absent or holds no marker gets no status (normal);
    and a leading line that holds a marker without being equal to one
    makes the extraction fail with the invalid-status error. *)
Theorem status_from_leading_line title :
  (∀ i s, _extract_lesson_info title = Ok i → info_status i = Some s →
     ∃ l1 rest,
       (splitlines title = u "Ændret!" :: l1 :: rest ∧ s = changed)
       ∨ (splitlines title = u "Aflyst!" :: l1 :: rest ∧ s = cancelled))
  ∧ (∀ l1 rest,
       (splitlines title = u "Ændret!" :: l1 :: rest →
        ∃ t o, leading (splitlines title) = Ok (Some changed, t, o))
       ∧ (splitlines title = u "Aflyst!" :: l1 :: rest →
          ∃ t o, leading (splitlines title) = Ok (Some cancelled, t, o)))
  ∧ (length (splitlines title) < 2
     ∨ (∃ l0 rest, splitlines title = l0 :: rest ∧ ¬ has_status_marker l0) →
     (∃ t o, leading (splitlines title) = Ok (None, t, o))
     ∧ (∀ i, _extract_lesson_info title = Ok i → info_status i = None)
     ∧ (∀ l, _extract_lesson_info title ≠ Raise (InvalidStatusError l)))
  ∧ (∀ l0 l1 rest,
       splitlines title = l0 :: l1 :: rest → has_status_marker l0 →
       l0 ≠ u "Ændret!" → l0 ≠ u "Aflyst!" →
       _extract_lesson_info title = Raise (InvalidStatusError l0)).
Proof.
  split_and!.
  - intros i s (t & o & Hl)%extract_status Hs. rewrite Hs in Hl.
    by apply leading_Some in Hl.
  - intros l1 rest. split; intros ->; by apply leading_marker.
  - intros Hshape.
    assert (∃ t o, leading (splitlines title) = Ok (None, t, o))
      as (t & o & Hl).
    { destruct Hshape as [Hlen|(l0 & rest & Hs & Hm)].
      - rewrite leading_short by done. eauto.
      - rewrite Hs. destruct rest as [|l1 rest]; [simpl; eauto|].
        apply leading_no_marker.
        destruct (_is_status_line l0) eqn:E; [|done].
        by apply is_status_line_iff in E. }
    split_and!; [eauto| |].
    + intros i (t' & o' & Hl')%extract_status. congruence.
    + intros l. unfold _extract_lesson_info. rewrite Hl. simpl.
      destruct (loop vars0 (drop o (splitlines title))) as [v|e] eqn:E;
        simpl; [done|].
      by apply loop_errors in E as ->.
  - intros l0 l1 rest Hs Hm%is_status_line_iff H1 H2.
    unfold _extract_lesson_info. rewrite Hs. simpl. rewrite Hm.
    destruct (get_status_from_line l0)
      as [[-> E]|[[-> E]|(_ & _ & E)]]; [done..|].
    by rewrite E.
Qed.

Lemma status_from_leading_line_witness :
  _extract_lesson_info (u "Aflyst! (se note)" ++ [nl] ++ u "Math 1a")
  = Raise (InvalidStatusError (u "Aflyst! (se note)")).
Proof.
  destruct (status_from_leading_line
              (u "Aflyst! (se note)" ++ [nl] ++ u "Math 1a"))
    as (_ & _ & _ & H).
  apply (H (u "Aflyst! (se note)") (u "Math 1a") []).
  - vm_compute. reflexivity.
  - exists [], (u " (se note)"). right. vm_compute. reflexivity.
  - vm_compute. discriminate.
  - vm_compute. discriminate.
Defined.

(** C4 does not hold as it is written: a leading line that is not a
    marker in full, but holds one, is a status error and not a normal
    status. *)
Lemma status_line_with_more_text_raises :
  head (splitlines (u "Aflyst! (se note)" ++ [nl] ++ u "Math 1a"))
    = Some (u "Aflyst! (se note)")
  ∧ u "Aflyst! (se note)" ≠ u "Aflyst!"
  ∧ u "Aflyst! (se note)" ≠ u "Ændret!"
  ∧ _extract_lesson_info (u "Aflyst! (se note)" ++ [nl] ++ u "Math 1a")
    = Raise (InvalidStatusError (u "Aflyst! (se note)")).
Proof. split_and!; vm_compute; done. Qed.

(** C10: a block of fewer than two lines gets no status and no title,
    and the loop runs over all of it; its only line, whatever it holds,
    is classified like any header line, and a free-text line lands in
    the summary.  The extraction returns, with no status, unless the
    line is a time-range line that names no date or time. *)
Theorem single_line_block title :
  length (splitlines title) < 2 →
  leading (splitlines title) = Ok (None, [], 0)
  ∧ _extract_lesson_info title
    = (v ← loop vars0 (splitlines title); Ok (compose None [] v))
  ∧ ((∃ i, _extract_lesson_info title = Ok i ∧ info_status i = None)
     ∨ _extract_lesson_info title = Raise ValueError)
  ∧ (∀ line, splitlines title = [line] →
       loop vars0 (splitlines title) = step vars0 line
       ∧ (classify line = FreeText →
          _extract_lesson_info title =
          Ok (mkinfo (_prepend_section_to_summary [] (clean_summary line))
                None None None None None false))).
Proof.
  intros Hlen. pose proof (leading_short _ Hlen) as Hl.
  assert (_extract_lesson_info title
          = (v ← loop vars0 (splitlines title); Ok (compose None [] v)))
    as He.
  { unfold _extract_lesson_info. rewrite Hl. done. }
  split_and!; [done..| |].
  - rewrite He.
    destruct (loop vars0 (splitlines title)) as [v|e] eqn:E; simpl.
    + left. eexists. split; [done|]. apply compose_status.
    + right. by apply loop_errors in E as ->.
  - intros line Hs. rewrite He, Hs. simpl.
    split; [by destruct (step vars0 line)|].
    intros Hc. rewrite step_classify, Hc by done. done.
Qed.

Lemma single_line_block_witness :
  _extract_lesson_info (u "Aflyst!")
  = Ok (mkinfo (u " • Aflyst!") None None None None None false).
Proof.
  destruct (single_line_block (u "Aflyst!")) as (_ & _ & _ & H);
    [vm_compute; lia|].
  destruct (H (u "Aflyst!")) as [_ H']; [vm_compute; reflexivity|].
  apply H'. vm_compute. reflexivity.
Defined.

(** C7, as the code has it: a header line is treated as a location
    line exactly when it is not blank, is not a time-range line, and
    holds "Lokale: " or "Lokaler: " at some position, not necessarily
    at its start; the loop then records a location and changes nothing
    else. *)
Theorem location_line_classification line :
  (classify line = LocationLine ↔
   line ≠ [] ∧ _is_time_line line = false ∧ has_location_marker line)
  ∧ (classify line = LocationLine →
     ∀ v, header_section v = true →
          ∃ p, step v line = Ok (set_location (Some p) v)).
Proof.
  assert (classify line = LocationLine ↔
          line ≠ [] ∧ _is_time_line line = false
          ∧ _is_location_line line = true) as Hc.
  { unfold classify. destruct (str_eqb line []) eqn:E0.
    { apply str_eqb_true in E0. split; [done|]. by intros [? _]. }
    apply str_eqb_false in E0.
    destruct (_is_time_line line); [split; [done|by intros (_ & ? & _)]|].
    destruct (_is_location_line line); [done|].
    split; [|by intros (_ & _ & ?)].
    destruct (_is_groups_line line); [done|].
    by destruct (_is_ressources_line line). }
  split.
  - rewrite Hc. unfold has_location_marker.
    by rewrite is_location_line_iff.
  - intros Hl v Hv. rewrite step_classify, Hl by done.
    apply Hc in Hl as (_ & _ & Hl).
    apply get_location_total in Hl as [p ->]. eauto.
Qed.

Lemma location_line_classification_witness :
  ∃ p, step vars0 (u "Lokaler: 204, 205")
       = Ok (set_location (Some p) vars0).
Proof.
  destruct (location_line_classification (u "Lokaler: 204, 205"))
    as [_ H].
  apply H; vm_compute; reflexivity.
Defined.

(** C7 does not hold as it is written: a line that holds the marker
    elsewhere than at its start is a location line all the same, and a
    line that begins with "Lokale:" and goes on without a blank is
    not. *)
Lemma location_marker_not_anchored :
  (classify (u "Rum Lokale: 204") = LocationLine
   ∧ startswith (u "Rum Lokale: 204") (u "Lokale:") = false
   ∧ startswith (u "Rum Lokale: 204") (u "Lokaler:") = false)
  ∧ (startswith (u "Lokale:204") (u "Lokale:") = true
     ∧ classify (u "Lokale:204") = FreeText).
Proof. split_and!; vm_compute; reflexivity. Qed.

(** The loop over lines of which none, in the header section, is a
    time-range line: it ends without an error and leaves the times as
    they were. *)
Lemma loop_keeps_times lines v :
  (header_section v = true →
   ∀ line, line ∈ header_part lines → _is_time_line line = false) →
  ∃ v', loop v lines = Ok v'
        ∧ start_time v' = start_time v
        ∧ end_time v' = end_time v
        ∧ is_top v' = is_top v.
Proof.
  revert v. induction lines as [|line lines IH]; intros v Hv; simpl.
  { eauto. }
  destruct (header_section v) eqn:Hh.
  2: { unfold step. rewrite Hh. simpl.
       destruct (IH (set_description
                       (_add_line_to_text line (description v)) v))
         as (v' & -> & ? & ? & ?);
         [intros Hf; simpl in Hf; congruence|]. eauto. }
  simpl in Hv. rewrite step_classify by done. unfold classify.
  destruct (str_eqb line []) eqn:E0.
  { simpl. destruct (IH (end_header v)) as (v' & -> & ? & ? & ?);
      [intros Hf; simpl in Hf; congruence|]. eauto. }
  assert (_is_time_line line = false) as ->.
  { apply Hv; [done|]. left. }
  assert (∀ line', line' ∈ header_part lines → _is_time_line line' = false)
    as Hrest.
  { intros line' Hin. apply Hv; [done|]. by right. }
  destruct (_is_location_line line) eqn:E2.
  { apply get_location_total in E2 as [p ->]. simpl.
    destruct (IH (set_location (Some p) v)) as (v' & -> & ? & ? & ?);
      [by intros _|]. eauto. }
  destruct (_is_groups_line line) eqn:E3.
  { apply get_groups_total in E3 as [p ->]. simpl.
    destruct (IH (set_groups (Some p) v)) as (v' & -> & ? & ? & ?);
      [by intros _|]. eauto. }
  destruct (_is_ressources_line line) eqn:E4.
  { apply get_ressources_total in E4 as [p ->]. simpl.
    destruct (IH (set_ressources (Some p) v)) as (v' & -> & ? & ? & ?);
      [by intros _|]. eauto. }
  simpl.
  destruct (IH (set_summary
                  (_append_section_to_summary line (summary v)) v))
    as (v' & -> & ? & ? & ?); [by intros _|]. eauto.
Qed.

(** C6, as the code has it: a block whose header section holds no
    time-range line is extracted without an error (once its leading
    lines are accepted), with start and end absent and [is_top]
    false. *)
Theorem block_without_time_line title status event_title offset :
  leading (splitlines title) = Ok (status, event_title, offset) →
  (∀ line, line ∈ header_part (drop offset (splitlines title)) →
           _is_time_line line = false) →
  ∃ i, _extract_lesson_info title = Ok i
       ∧ info_start_time i = None
       ∧ info_end_time i = None
       ∧ info_is_top i = false.
Proof.
  intros Hl Hh. unfold _extract_lesson_info. rewrite Hl. simpl.
  destruct (loop_keeps_times (drop offset (splitlines title)) vars0)
    as (v & -> & Hs & He & Ht); [done|].
  simpl. eexists. split; [done|].
  destruct (compose_times status event_title v) as (-> & -> & ->). done.
Qed.

Lemma block_without_time_line_witness :
  ∃ i, _extract_lesson_info (u "Matematik" ++ [nl] ++ u "Lokale: 204")
       = Ok i
       ∧ info_start_time i = None
       ∧ info_end_time i = None
       ∧ info_is_top i = false.
Proof.
  apply (block_without_time_line
           (u "Matematik" ++ [nl] ++ u "Lokale: 204") None (u "Matematik") 1).
  - vm_compute. reflexivity.
  - intros line Hin. vm_compute in Hin.
    apply list_elem_of_singleton in Hin as ->. vm_compute. reflexivity.
Defined.

(** C6 does not hold as it is written: a block without any time-range
    line is extracted without an error, and start and end are absent. *)
Lemma block_without_time_line_extracted :
  forallb (fun line => negb (_is_time_line line))
    (splitlines (u "Matematik" ++ [nl] ++ u "Lokale: 204")) = true
  ∧ _extract_lesson_info (u "Matematik" ++ [nl] ++ u "Lokale: 204")
    = Ok (mkinfo (u "Matematik • 204") None None None (Some (u "204"))
            None false)
  ∧ _parse_element_to_lesson
      (mkelement None (Some (u "Matematik" ++ [nl] ++ u "Lokale: 204")))
      false false
    = Ok (Some (lesson.mkLesson None (u "Matematik • 204") None None None
                  (Some (u "204")) None None)).
Proof. split_and!; vm_compute; reflexivity. Qed.

(** C5 is not what the code does: the three payload extractors raise
    their error only on a line without the marker, and on a line that
    the classifier accepts they never do, so that a marker with nothing
    behind it yields an empty payload and a Lesson. *)
Theorem marker_without_payload_accepted :
  _extract_lesson_info
    (u "14/3-2016 15:20 til 16:50" ++ [nl] ++ u "Lokale: " ++ [nl]
       ++ u "Hold: " ++ [nl] ++ u "Ressourcer: ")
  = Ok (mkinfo []
          None
          (Some (DateTime (mkdate 2016 3 14) (mktime 15 20)))
          (Some (DateTime (mkdate 2016 3 14) (mktime 16 50)))
          (Some []) None false)
  ∧ _parse_element_to_lesson
      (mkelement None
         (Some (u "14/3-2016 15:20 til 16:50" ++ [nl] ++ u "Lokale: ")))
      false false
    = Ok (Some (lesson.mkLesson None [] None
                  (Some (DateTime (mkdate 2016 3 14) (mktime 15 20)))
                  (Some (DateTime (mkdate 2016 3 14) (mktime 16 50)))
                  (Some []) None None))
  ∧ _get_location_from_line (u "Lokale: ") = Ok (Some [])
  ∧ _get_groups_from_line (u "Hold: ") = Ok (Some [])
  ∧ _get_ressources_from_line (u "Ressourcer: ") = Ok (Some [])
  ∧ _get_location_from_line (u "Lokale:")
    = Raise (InvalidLocationError (u "Lokale:")).
Proof. split_and!; vm_compute; reflexivity. Qed.

End extractor.

(** ** The lesson filter *)

Section lesson_filter.

Implicit Types (e : element) (i : info).

(** C8: a Lesson is discarded when it is a header entry and [show_top]
    is off, discarded when it is cancelled and [show_cancelled] is off,
    and kept, with the extracted values, otherwise. *)
Theorem lesson_filter e show_top show_cancelled title i :
  data_additionalinfo e = Some title →
  _extract_lesson_info title = Ok i →
  (info_is_top i = true → show_top = false →
   _parse_element_to_lesson e show_top show_cancelled = Ok None)
  ∧ (info_status i = Some cancelled → show_cancelled = false →
     _parse_element_to_lesson e show_top show_cancelled = Ok None)
  ∧ (¬ (info_is_top i = true ∧ show_top = false) →
     ¬ (info_status i = Some cancelled ∧ show_cancelled = false) →
     ∃ l, _parse_element_to_lesson e show_top show_cancelled = Ok (Some l)
          ∧ lesson.summary l = info_summary i
          ∧ lesson.status l = info_status i
          ∧ lesson.start l = info_start_time i
          ∧ lesson.end_ l = info_end_time i
          ∧ lesson.location l = info_location i
          ∧ lesson.description l = info_description i).
Proof.
  intros He Hi. unfold _parse_element_to_lesson.
  destruct (truthy_opt (href e)); rewrite He, Hi; simpl.
  all: split_and!.
  all: try (intros -> ->; simpl; done).
  all: try (intros Hs ->; simpl; rewrite bool_decide_eq_true_2 by done;
            by destruct (negb show_top && info_is_top i)).
  all: intros Htop Hc.
  all: destruct show_top, (info_is_top i); simpl; try tauto.
  all: destruct show_cancelled; simpl; eauto 10.
  all: rewrite bool_decide_eq_false_2 by tauto; eauto 10.
Qed.

Lemma lesson_filter_witness :
  _parse_element_to_lesson
    (mkelement None
       (Some (u "Aflyst!" ++ [nl] ++ u "Math 1a" ++ [nl]
                ++ u "14/3-2016 15:20 til 16:50")))
    true false
  = Ok None.
Proof.
  destruct (lesson_filter
              (mkelement None
                 (Some (u "Aflyst!" ++ [nl] ++ u "Math 1a" ++ [nl]
                          ++ u "14/3-2016 15:20 til 16:50")))
              true false
              (u "Aflyst!" ++ [nl] ++ u "Math 1a" ++ [nl]
                 ++ u "14/3-2016 15:20 til 16:50")
              (mkinfo (u "Math 1a") (Some cancelled)
                 (Some (DateTime (mkdate 2016 3 14) (mktime 15 20)))
                 (Some (DateTime (mkdate 2016 3 14) (mktime 16 50)))
                 None None false))
    as (_ & H & _); [vm_compute; reflexivity..|].
  apply H; reflexivity.
Defined.

End lesson_filter.

(** ** The scenarios of the specification, run on the model *)

Section scenarios.

(** A block that starts with its time-range line: no status, no title. *)
Example scenario_A :
  _extract_lesson_info
    (u "14/3-2016 15:20 til 16:50" ++ [nl] ++ u "Lokale: 204" ++ [nl]
       ++ u "Hold: 1a")
  = Ok (mkinfo (u "1a • 204") None
          (Some (DateTime (mkdate 2016 3 14) (mktime 15 20)))
          (Some (DateTime (mkdate 2016 3 14) (mktime 16 50)))
          (Some (u "204")) (Some [nl; nl]) false).
Proof. vm_compute. reflexivity. Qed.

(** A cancelled all-day entry with a title. *)
Example scenario_B :
  _extract_lesson_info
    (u "Aflyst!" ++ [nl] ++ u "Math 1a" ++ [nl] ++ u "14/3-2016 Hele dagen")
  = Ok (mkinfo (u "Math 1a") (Some cancelled)
          (Some (DateOnly (mkdate 2016 3 14))) (Some (DateOnly (mkdate 2016 3 14)))
          None None true).
Proof. vm_compute. reflexivity. Qed.

(** A range over two days. *)
Example scenario_C :
  _get_time_from_line (u "8/4-2016 17:30 til 9/4-2016 01:00")
  = Ok (Some (DateTime (mkdate 2016 4 8) (mktime 17 30)),
        Some (DateTime (mkdate 2016 4 9) (mktime 1 0)), false).
Proof. vm_compute. reflexivity. Qed.

(** The same Lesson in two periods is kept once, where it came first. *)
Example scenario_D :
  let a := lesson.mkLesson (Some (u "1")) (u "Ma") None None None None None
             None in
  let b := lesson.mkLesson (Some (u "2")) (u "Ma") None None None None None
             None in
  let c := lesson.mkLesson None (u "Ma") None None None None None None in
  _filter_for_duplicates ([a; b] ++ [b; c; a]) = [a; b; c].
Proof. vm_compute. reflexivity. Qed.

(** Groups for all: the title goes to the summary; groups for some: the
    title goes to the description. *)
Example scenario_E :
  _extract_lesson_info
    (u "Fællestime" ++ [nl] ++ u "14/3-2016 15:20 til 16:50" ++ [nl]
       ++ u "Hold: Alle 1a, 1b")
  = Ok (mkinfo (u "Fællestime • Alle 1a, 1b") None
          (Some (DateTime (mkdate 2016 3 14) (mktime 15 20)))
          (Some (DateTime (mkdate 2016 3 14) (mktime 16 50)))
          None None false)
  ∧ _extract_lesson_info
      (u "Matematik" ++ [nl] ++ u "14/3-2016 15:20 til 16:50" ++ [nl]
         ++ u "Hold: 1a")
    = Ok (mkinfo (u "1a") None
            (Some (DateTime (mkdate 2016 3 14) (mktime 15 20)))
            (Some (DateTime (mkdate 2016 3 14) (mktime 16 50)))
            None (Some (u "Matematik" ++ [nl; nl])) false).
Proof. split; vm_compute; reflexivity. Qed.

(** The teacher lines of a summary are cut down to the initials. *)
Example teacher_compaction :
  clean_summary (u "Lærere: AB, CD • Lærer: Jens Hansen (JH) • 1g")
  = u "AB, CD • JH • 1g".
Proof. vm_compute. reflexivity. Qed.

End scenarios.


(** ** First matches *)

Section first_match.

Implicit Types (r : regex) (c : caps) (s : str) (m : caps * str).

Lemma head_app_Some {A} (l k : list A) (x : A) :
  head (l ++ k) = Some x → head l = Some x ∨ (l = [] ∧ head k = Some x).
Proof. destruct l; simpl; eauto. Qed.

Lemma head_bind_Some {A B} (f : A → list B) (l : list A) (y : B) :
  head (l ≫= f) = Some y → ∃ x, x ∈ l ∧ head (f x) = Some y.
Proof.
  induction l as [|x l IH]; simpl; [done|].
  intros [H|[_ H]]%head_app_Some.
  - exists x. split; [left|done].
  - destruct (IH H) as (x' & ? & ?). exists x'. split; [by right|done].
Qed.

Lemma head_mtch_Seq r1 r2 c s m :
  head (mtch (Seq r1 r2) c s) = Some m →
  ∃ m1, m1 ∈ mtch r1 c s ∧ head (mtch r2 m1.1 m1.2) = Some m.
Proof. apply head_bind_Some. Qed.

Lemma head_mtch_Grp i r c s m :
  head (mtch (Grp i r) c s) = Some m →
  ∃ m1, head (mtch r c s) = Some m1
        ∧ m = ((i, take (length s - length m1.2) s) :: m1.1, m1.2).
Proof.
  simpl. destruct (mtch r c s) as [|m1 l]; simpl; [done|].
  intros [= <-]. eauto.
Qed.

(** The first match of a starred set takes the longest run. *)
Lemma star_cls_run cs c (run rest : str) :
  Forall (fun x => in_cset cs x = true) run →
  match rest with [] => True | y :: _ => in_cset cs y = false end →
  ∃ tl, star_cls cs c (run ++ rest) = (c, rest) :: tl.
Proof.
  intros Hrun Hrest. induction Hrun as [|x run Hx _ [tl IH]]; simpl.
  - destruct rest as [|y rest]; simpl; [by eexists|].
    rewrite Hrest. by eexists.
  - rewrite Hx, IH. simpl. by eexists.
Qed.

Lemma longest_run cs s :
  ∃ run rest : str,
    s = run ++ rest
    ∧ Forall (fun x => in_cset cs x = true) run
    ∧ match rest with [] => True | y :: _ => in_cset cs y = false end.
Proof.
  induction s as [|x s (run & rest & -> & Hrun & Hrest)].
  - by exists [], [].
  - destruct (in_cset cs x) eqn:E.
    + exists (x :: run), rest. split_and!; [done| |done]. by constructor.
    + exists [], (x :: run ++ rest). split_and!; done.
Qed.

Lemma head_star_cls cs c s m :
  head (star_cls cs c s) = Some m →
  ∃ run : str,
    s = run ++ m.2 ∧ m.1 = c
    ∧ Forall (fun x => in_cset cs x = true) run
    ∧ match m.2 with [] => True | y :: _ => in_cset cs y = false end.
Proof.
  destruct (longest_run cs s) as (run & rest & -> & Hrun & Hrest).
  destruct (star_cls_run cs c run rest Hrun Hrest) as [tl ->].
  intros [= <-]. by exists run.
Qed.

Lemma mtch_Lit_app l c s : mtch (Lit l) c (l ++ s) = [(c, s)].
Proof.
  simpl. by rewrite (proj2 (strip_prefix_Some l (l ++ s) s) eq_refl).
Qed.

End first_match.

(** ** Identifier and link of a tile *)

Section links.

Implicit Types (link pre post : str).

Lemma id_name_matches (name rest : str) :
  name ∈ id_names →
  ([], rest) ∈ mtch (Alt (Lit (u "absid"))
                    (Alt (Lit (u "ProeveholdId"))
                    (Alt (Lit (u "outboundCensorID"))
                         (Lit (u "aftaleid")))))
                 [] (name ++ rest).
Proof.
  unfold id_names. rewrite !elem_of_cons, elem_of_nil.
  intros [->|[->|[->|[->|[]]]]].
  - apply elem_of_mtch_Alt. left. by apply elem_of_mtch_Lit.
  - apply elem_of_mtch_Alt. right. apply elem_of_mtch_Alt. left.
    by apply elem_of_mtch_Lit.
  - do 2 (apply elem_of_mtch_Alt; right). apply elem_of_mtch_Alt. left.
    by apply elem_of_mtch_Lit.
  - do 3 (apply elem_of_mtch_Alt; right). by apply elem_of_mtch_Lit.
Qed.

Lemma id_name_matched (s : str) (m : caps * str) :
  m ∈ mtch (Alt (Lit (u "absid"))
           (Alt (Lit (u "ProeveholdId"))
           (Alt (Lit (u "outboundCensorID"))
                (Lit (u "aftaleid")))))
        [] s →
  ∃ name, name ∈ id_names ∧ s = name ++ m.2 ∧ m.1 = [].
Proof.
  unfold id_names.
  intros [H|[H|[H|H]%elem_of_mtch_Alt]%elem_of_mtch_Alt]%elem_of_mtch_Alt;
    apply elem_of_mtch_Lit in H as [? ?]; eexists;
    (split; [|split; [eassumption|done]]); rewrite !elem_of_cons; tauto.
Qed.

(** X1: the identifier of a link is the longest run of decimal digits
    behind the first "name=" (one of the four parameter names) that a
    digit follows; the identifier is absent exactly when the link holds
    no such parameter. *)
Theorem id_from_link_is_digit_run link :
  match _get_id_from_link link with
  | Some id =>
      ∃ pre name post,
        link = pre ++ name ++ u "=" ++ id ++ post
        ∧ name ∈ id_names
        ∧ id ≠ [] ∧ all_digits id ∧ no_digit_ahead post
  | None =>
      ¬ ∃ pre name (d : char) post,
          link = pre ++ name ++ u "=" ++ d :: post
          ∧ name ∈ id_names ∧ is_digit d = true
  end.
Proof.
  unfold _get_id_from_link. destruct (search id_re link) as [c|] eqn:E.
  - apply search_Some in E as (pre & suf & rest & -> & Hm).
    apply head_mtch_Seq in Hm as (m1 & H1 & Hm).
    apply id_name_matched in H1 as (name & Hname & -> & E1).
    apply head_mtch_Seq in Hm as (m2 & [E2 H2]%elem_of_mtch_Lit & Hm).
    apply head_mtch_Grp in Hm as (m3 & Hm & [= -> ->]).
    apply head_mtch_Seq in Hm as (m4 & H4 & Hm).
    apply elem_of_mtch_Cls in H4 as (x & H4 & Hx & E4).
    apply head_star_cls in Hm as (run & Hrun & E3 & Hd & Hrest).
    simpl. rewrite H4, Hrun.
    replace (take _ _) with (x :: run).
    2: { rewrite (app_comm_cons run), take_app_length'; [done|].
         rewrite length_app. simpl. lia. }
    exists pre, name, m3.2. rewrite H2, H4, Hrun. split_and!; try done.
    by constructor.
  - intros (pre & name & d & post & -> & Hname & Hd).
    pose proof (search_None _ _ pre _ E eq_refl) as Hnil.
    destruct (nonempty_elem_of (star_cls Digit [] post)) as [[m Hm] _];
      [apply star_cls_nonempty|].
    eapply elem_of_nil. rewrite <- Hnil.
    apply elem_of_mtch_Seq. exists ([], u "=" ++ d :: post).
    split; [by apply id_name_matches|].
    apply elem_of_mtch_Seq. exists ([], d :: post).
    split; [by apply elem_of_mtch_Lit|].
    apply elem_of_mtch_Grp. exists m. split; [|done].
    apply elem_of_mtch_Seq. exists ([], post). split; [|done].
    apply elem_of_mtch_Cls. eauto.
Qed.

Lemma startswith_app (s p t : str) :
  startswith s p = true → startswith (s ++ t) p = true.
Proof.
  rewrite !startswith_true. intros [r ->]. exists (r ++ t).
  by rewrite (assoc_L (++)).
Qed.

(** The part before the first occurrence of a separator is free of it. *)
Lemma before_first_spec (sep s : str) :
  sep ≠ [] →
  contains sep (before_first sep s) = false
  ∧ ((contains sep s = false ∧ before_first sep s = s)
     ∨ ∃ rest, s = before_first sep s ++ sep ++ rest).
Proof.
  intros Hsep. induction s as [|x s [IH1 IH2]].
  - simpl. destruct sep; [done|]. simpl. split; [done|]. by left.
  - cbn [before_first]. destruct (startswith (x :: s) sep) eqn:E.
    + split; [by destruct sep|]. right.
      apply startswith_true in E as [r ->]. by exists r.
    + cbn [contains].
      assert (startswith (x :: before_first sep s) sep = false) as ->.
      { destruct (startswith (x :: before_first sep s) sep) eqn:E'; [|done].
        destruct IH2 as [[_ Hb]|[rest Hs]]; [rewrite Hb in E'; congruence|].
        apply (startswith_app _ _ (sep ++ rest)) in E'.
        simpl in E'. rewrite <- Hs in E'. congruence. }
      rewrite IH1. split; [done|].
      destruct IH2 as [[Hc Hb]|[rest Hs]].
      * left. rewrite E, Hc, Hb. done.
      * right. exists rest. simpl. by rewrite <- Hs.
Qed.

(** X2: the complete link is the site's origin followed by the link up
    to its first "&prevurl=" (all of the link if it has none), and it
    never holds "&prevurl=". *)
Theorem complete_link_has_no_prevurl link :
  (∃ p, _get_complete_link link = u "https://www.lectio.dk" ++ p
        ∧ ((contains (u "&prevurl=") link = false ∧ p = link)
           ∨ ∃ rest, link = p ++ u "&prevurl=" ++ rest))
  ∧ contains (u "&prevurl=") (_get_complete_link link) = false.
Proof.
  destruct (before_first_spec (u "&prevurl=") link) as [H1 H2].
  { intros H. vm_compute in H. discriminate. }
  split.
  - exists (before_first (u "&prevurl=") link). split; [done|].
    destruct H2 as [[? ?]|?]; eauto.
  - unfold _get_complete_link. revert H1.
    generalize (before_first (u "&prevurl=") link). intros p Hp.
    let b := eval vm_compute in (u "https://www.lectio.dk") in
    change (u "https://www.lectio.dk") with b.
    let b := eval vm_compute in (u "&prevurl=") in
    change (u "&prevurl=") with b in *.
    cbn. exact Hp.
Qed.

End links.

(** ** Payloads of the marker lines *)

Section payloads.

Implicit Types (line p : str).

Lemma splitlines_go_no_linebreak after_cr (cur s line : str) :
  Forall (fun c => is_linebreak c = false) cur →
  line ∈ splitlines_go after_cr cur s →
  Forall (fun c => is_linebreak c = false) line.
Proof.
  revert after_cr cur. induction s as [|x s IH]; intros after_cr cur Hcur.
  - cbn [splitlines_go]. destruct cur; [by intros ?%elem_of_nil|].
    by intros ->%list_elem_of_singleton.
  - cbn [splitlines_go]. destruct (after_cr && (x =? 10)%N); [by apply IH|].
    destruct (is_linebreak x) eqn:E.
    + intros [->|H]%elem_of_cons; [done|]. by apply IH in H.
    + apply IH. apply Forall_app. split; [done|]. by constructor.
Qed.

(** No line of [splitlines] holds a line boundary. *)
Lemma splitlines_no_linebreak (s line : str) :
  line ∈ splitlines s → Forall (fun c => is_linebreak c = false) line.
Proof. by apply splitlines_go_no_linebreak. Qed.

Lemma no_linebreak_any p :
  Forall (fun c => is_linebreak c = false) p →
  Forall (fun c => in_cset Any c = true) p.
Proof.
  intros H. eapply Forall_impl; [exact H|]. intros c Hc. cbn [in_cset].
  destruct (N.eqb_spec c 10) as [->|]; [by vm_compute in Hc|done].
Qed.

Lemma search_here r (s : str) (m : caps * str) :
  match_ r s = Some m → search r s = Some m.1.
Proof. intros H. destruct s; simpl; by rewrite H. Qed.

(** A marker that matches in one way only, followed by a payload
    without a newline: group 1 is the payload. *)
Lemma search_marker_payload r0 (mk p : str) :
  mtch r0 [] (mk ++ p) = [([], p)] →
  Forall (fun c => in_cset Any c = true) p →
  search (Seq r0 (Grp 1 (Star Any))) (mk ++ p) = Some [(1, p)].
Proof.
  intros Hr0 Hp.
  destruct (star_cls_run Any [] p [] Hp I) as [tl Htl].
  rewrite app_nil_r in Htl.
  rewrite (search_here _ _ ([(1, p)], [])); [done|].
  unfold match_. simpl. rewrite Hr0. simpl. rewrite Htl. simpl.
  by rewrite Nat.sub_0_r, firstn_all.
Qed.

(** X3: on a line of a block, the groups, the resources and the location
    are the whole rest of the line behind the marker at its start. *)
Theorem payload_is_rest_of_line title line p :
  line ∈ splitlines title →
  (line = u "Hold: " ++ p → _get_groups_from_line line = Ok (Some p))
  ∧ (line = u "Ressourcer: " ++ p →
     _get_ressources_from_line line = Ok (Some p))
  ∧ (line = u "Lokale: " ++ p → _get_location_from_line line = Ok (Some p))
  ∧ (line = u "Lokaler: " ++ p →
     _get_location_from_line line = Ok (Some p)).
Proof.
  intros Hline%splitlines_no_linebreak.
  split_and!; intros ->; apply Forall_app in Hline as [_ Hp%no_linebreak_any].
  - unfold _get_groups_from_line.
    change groups_re with (Seq (Lit (u "Hold: ")) (Grp 1 (Star Any))).
    rewrite search_marker_payload; [done| |done]. apply mtch_Lit_app.
  - unfold _get_ressources_from_line.
    change ressources_re
      with (Seq (Lit (u "Ressourcer: ")) (Grp 1 (Star Any))).
    rewrite search_marker_payload; [done| |done]. apply mtch_Lit_app.
  - unfold _get_location_from_line.
    change location_re with (Seq location_marker_re (Grp 1 (Star Any))).
    rewrite search_marker_payload; [done| |done]. reflexivity.
  - unfold _get_location_from_line.
    change location_re with (Seq location_marker_re (Grp 1 (Star Any))).
    rewrite search_marker_payload; [done| |done]. reflexivity.
Qed.

Lemma payload_is_rest_of_line_witness :
  _get_location_from_line (u "Lokaler: 204, 205") = Ok (Some (u "204, 205")).
Proof.
  destruct (payload_is_rest_of_line
              (u "Math" ++ [nl] ++ u "Lokaler: 204, 205")
              (u "Lokaler: 204, 205") (u "204, 205")) as (_ & _ & _ & H).
  - vm_compute. right. left.
  - apply H. reflexivity.
Defined.

End payloads.

(** ** What the loop gathers *)

Section gathering.

Implicit Types (v : vars) (line text : str) (lines : list str).

Lemma join_cons_cons (sep x y : str) (l : list str) :
  join sep (x :: y :: l) = x ++ sep ++ join sep (y :: l).
Proof. done. Qed.

Lemma join_merge (sep x y : str) (l : list str) :
  join sep ((x ++ sep ++ y) :: l) = join sep (x :: y :: l).
Proof.
  destruct l as [|z l]; [done|].
  rewrite !join_cons_cons. by rewrite <- !(assoc_L (++)).
Qed.

(** Lines added to a text that is not empty: all of them are joined to it
    by newlines. *)
Lemma add_lines_nonempty text lines :
  text ≠ [] →
  foldl (fun t l => _add_line_to_text l t) text lines
  = join [nl] (text :: lines).
Proof.
  revert text. induction lines as [|l lines IH]; intros text Ht; [done|].
  simpl foldl. unfold _add_line_to_text at 2.
  assert (truthy text = true) as -> by by destruct text.
  rewrite IH by by destruct text.
  rewrite <- (assoc_L (++)). apply join_merge.
Qed.

(** Lines added to the empty text: the blank lines at the start leave no
    trace. *)
Lemma add_lines_empty lines :
  foldl (fun t l => _add_line_to_text l t) [] lines
  = join [nl] (drop_blank lines).
Proof.
  induction lines as [|l lines IH]; [done|].
  destruct l as [|x l]; [exact IH|].
  simpl foldl. unfold _add_line_to_text at 2. simpl.
  by rewrite add_lines_nonempty.
Qed.

Lemma loop_description v lines :
  header_section v = false →
  loop v lines =
  Ok (set_description
        (foldl (fun t l => _add_line_to_text l t) (description v) lines) v).
Proof.
  revert v. induction lines as [|l lines IH]; intros v Hv; simpl.
  - by destruct v.
  - unfold step. rewrite Hv. simpl. rewrite IH by done. done.
Qed.

(** X4: behind the header section the loop never fails and changes the
    description only; starting from the empty description, the result is
    the lines joined by newlines, without the blank lines that come
    first. *)
Theorem description_is_joined_lines v lines :
  header_section v = false → description v = [] →
  loop v lines = Ok (set_description (join [nl] (drop_blank lines)) v).
Proof.
  intros Hv Hd. rewrite loop_description, Hd by done.
  by rewrite add_lines_empty.
Qed.

Lemma description_is_joined_lines_witness :
  loop (end_header vars0) [[]; u "Husk bog"; []; u "Side 3"]
  = Ok (set_description (u "Husk bog" ++ [nl; nl] ++ u "Side 3")
          (end_header vars0)).
Proof.
  apply (description_is_joined_lines (end_header vars0)
           [[]; u "Husk bog"; []; u "Side 3"]); reflexivity.
Defined.

Lemma is_free_text_nonblank line : is_free_text line = true → line ≠ [].
Proof. unfold is_free_text, classify. by intros H ->. Qed.

Lemma append_sections_nonempty (summary : str) lines :
  summary ≠ [] →
  foldl (fun s l => _append_section_to_summary l s) summary lines
  = join SPACER (summary :: lines).
Proof.
  revert summary. induction lines as [|l lines IH]; intros summary Hs;
    [done|].
  simpl foldl. unfold _append_section_to_summary at 2.
  assert (truthy summary = true) as -> by by destruct summary.
  rewrite IH by by destruct summary.
  apply join_merge.
Qed.

Lemma append_sections_empty lines :
  Forall (fun l => l ≠ []) lines →
  foldl (fun s l => _append_section_to_summary l s) [] lines
  = join SPACER lines.
Proof.
  intros H. destruct H as [|l ls Hl _]; [done|]. simpl foldl.
  unfold _append_section_to_summary at 2. simpl.
  by rewrite append_sections_nonempty.
Qed.

Lemma blank_classify line :
  str_eqb line [] = match classify line with Blank => true | _ => false end.
Proof.
  unfold classify. destruct (str_eqb line []); [done|].
  destruct (_is_time_line line); [done|].
  destruct (_is_location_line line); [done|].
  destruct (_is_groups_line line); [done|].
  by destruct (_is_ressources_line line).
Qed.

Lemma loop_summary lines v v' :
  loop v lines = Ok v' →
  summary v' =
  if header_section v
  then foldl (fun s l => _append_section_to_summary l s) (summary v)
         (List.filter is_free_text (header_part lines))
  else summary v.
Proof.
  revert v. induction lines as [|line lines IH]; intros v.
  { simpl. intros [= <-]. by destruct (header_section v). }
  cbn [loop header_part]. destruct (header_section v) eqn:Hv.
  2: { unfold step. rewrite Hv. simpl. intros H%IH. rewrite H. simpl.
       by rewrite Hv. }
  rewrite step_classify, blank_classify by done.
  destruct (classify line) eqn:Hc; cbn [List.filter]; unfold is_free_text;
    rewrite ?Hc.
  - simpl. intros H%IH. by rewrite H.
  - destruct (_get_time_from_line line) as [t|e]; simpl; [|done].
    intros H%IH. rewrite H. simpl. by rewrite Hv.
  - destruct (_get_location_from_line line) as [t|e]; simpl; [|done].
    intros H%IH. rewrite H. simpl. by rewrite Hv.
  - destruct (_get_groups_from_line line) as [t|e]; simpl; [|done].
    intros H%IH. rewrite H. simpl. by rewrite Hv.
  - destruct (_get_ressources_from_line line) as [t|e]; simpl; [|done].
    intros H%IH. rewrite H. simpl. by rewrite Hv.
  - simpl. intros H%IH. rewrite H. simpl. by rewrite Hv.
Qed.

(** X5: when the loop over the lines of a block ends, the summary is the
    free-text lines of the header section, in their order, joined by the
    bullet separator; the other lines, and all lines behind the first
    blank one, leave it alone. *)
Theorem summary_is_joined_free_text lines v :
  loop vars0 lines = Ok v →
  summary v = join SPACER (List.filter is_free_text (header_part lines)).
Proof.
  intros H%loop_summary. rewrite H. simpl.
  apply append_sections_empty, List.Forall_forall.
  intros l [_ Hl]%filter_In. by apply is_free_text_nonblank.
Qed.

Lemma summary_is_joined_free_text_witness :
  ∃ v, loop vars0 [u "1g Ma"; u "14/3-2016 15:20 til 16:50"; u "Eksamen";
                   []; u "Note"] = Ok v
       ∧ summary v = u "1g Ma • Eksamen".
Proof.
  eexists. split; [vm_compute; reflexivity|].
  apply (summary_is_joined_free_text
           [u "1g Ma"; u "14/3-2016 15:20 til 16:50"; u "Eksamen"; [];
            u "Note"]).
  vm_compute. reflexivity.
Defined.

End gathering.


(** ** What an extraction can yield *)

Section extraction_results.

Implicit Types (title line : str) (v : vars) (i : info).

(** X6: the extraction of a block fails in two ways only: with the
    invalid-status error, which names the first line of the block, or
    with the [ValueError] of [strptime]; the errors of the time-range,
    location, groups and resources extractors never come out of it. *)
Theorem extraction_fails_in_two_ways title err :
  _extract_lesson_info title = Raise err →
  err = ValueError
  ∨ ∃ l0, head (splitlines title) = Some l0 ∧ err = InvalidStatusError l0.
Proof. apply extract_errors. Qed.

Lemma extraction_fails_in_two_ways_witness :
  InvalidStatusError (u "Aflyst! i dag") = ValueError
  ∨ ∃ l0, head (splitlines (u "Aflyst! i dag" ++ [nl] ++ u "Ma")) = Some l0
          ∧ InvalidStatusError (u "Aflyst! i dag") = InvalidStatusError l0.
Proof.
  apply (extraction_fails_in_two_ways (u "Aflyst! i dag" ++ [nl] ++ u "Ma")).
  vm_compute. reflexivity.
Defined.

Lemma normalize_not_empty (d : str) : normalize d ≠ Some [].
Proof. by destruct d. Qed.

(** Whatever the line, a result of the time-range parser is one date
    with [is_top] set, or two points in time with [is_top] not set. *)
Lemma get_time_from_line_shape line s e top :
  _get_time_from_line line = Ok (s, e, top) →
  (∃ d, s = Some (DateOnly d) ∧ e = Some (DateOnly d) ∧ top = true)
  ∨ (∃ d1 t1 d2 t2, s = Some (DateTime d1 t1) ∧ e = Some (DateTime d2 t2)
                    ∧ top = false).
Proof.
  unfold _get_time_from_line.
  destruct (search time_re line) as [c|] eqn:Hc; [|done].
  destruct (time_re_groups line c Hc) as (g1 & Hg1 & G1 & Hcases).
  rewrite G1.
  destruct (get_date_from_match_cases g1 Hg1) as [[d1 ->]| ->]; [|done].
  simpl.
  destruct Hcases as [(G2 & G3 & G4)|(g2 & g4 & Hg2 & Hg4 & G2 & G4 & G3)].
  { rewrite G2, G3, G4. simpl. intros [= <- <- <-]. left. eauto. }
  rewrite G2, G4.
  destruct (get_time_from_match_cases g2 Hg2) as [[t2 ->]| ->]; [|done].
  simpl.
  destruct G3 as [G3|(g3 & Hg3 & G3)]; rewrite G3.
  - simpl.
    destruct (get_time_from_match_cases g4 Hg4) as [[t4 ->]| ->]; [|done].
    simpl. intros [= <- <- <-]. right. eauto 10.
  - destruct (get_date_from_match_cases g3 Hg3) as [[d3 ->]| ->]; [|done].
    simpl.
    destruct (get_time_from_match_cases g4 Hg4) as [[t4 ->]| ->]; [|done].
    simpl. intros [= <- <- <-]. right. eauto 10.
Qed.

Lemma loop_times_well_formed lines v v' :
  times_well_formed (start_time v) (end_time v) (is_top v) →
  loop v lines = Ok v' →
  times_well_formed (start_time v') (end_time v') (is_top v').
Proof.
  revert v. induction lines as [|line lines IH]; intros v Hwf; simpl.
  { by intros [= <-]. }
  destruct (step v line) as [v1|err] eqn:E; simpl; [|done].
  apply IH. revert E. unfold step.
  destruct (header_section v); [|by intros [= <-]].
  destruct (str_eqb line []); [by intros [= <-]|].
  destruct (_is_time_line line).
  { destruct (_get_time_from_line line) as [[[s e] top]|err] eqn:Et; simpl;
      [|done].
    intros [= <-]. simpl. right.
    by apply get_time_from_line_shape in Et. }
  destruct (_is_location_line line).
  { destruct (_get_location_from_line line); simpl; [|done].
    by intros [= <-]. }
  destruct (_is_groups_line line).
  { destruct (_get_groups_from_line line); simpl; [|done].
    by intros [= <-]. }
  destruct (_is_ressources_line line).
  { destruct (_get_ressources_from_line line); simpl; [|done].
    by intros [= <-]. }
  by intros [= <-].
Qed.

(** The times that come out of the extraction are those of the loop. *)
Lemma extract_times_shape title i :
  _extract_lesson_info title = Ok i →
  times_well_formed (info_start_time i) (info_end_time i) (info_is_top i).
Proof.
  unfold _extract_lesson_info.
  destruct (leading (splitlines title)) as [[[st t] o]|err]; simpl; [|done].
  destruct (loop vars0 (drop o (splitlines title))) as [v|err] eqn:E;
    simpl; [|done].
  intros [= <-].
  destruct (compose_times st t v) as (-> & -> & ->).
  eapply loop_times_well_formed; [|exact E]. by left.
Qed.

(** X7: the times of an extracted block are well formed: start and end
    are both absent, or both the same date with [is_top] set, or both a
    date with a time of day with [is_top] not set; [is_top] is set
    exactly when the start is a date without a time. *)
Theorem extracted_times_well_formed title i :
  _extract_lesson_info title = Ok i →
  times_well_formed (info_start_time i) (info_end_time i) (info_is_top i).
Proof. apply extract_times_shape. Qed.

Lemma extracted_times_well_formed_witness :
  times_well_formed
    (Some (DateOnly (mkdate 2016 3 14))) (Some (DateOnly (mkdate 2016 3 14)))
    true.
Proof.
  apply (extracted_times_well_formed
           (u "Aflyst!" ++ [nl] ++ u "Math 1a" ++ [nl]
              ++ u "14/3-2016 Hele dagen")
           (mkinfo (u "Math 1a") (Some cancelled)
              (Some (DateOnly (mkdate 2016 3 14)))
              (Some (DateOnly (mkdate 2016 3 14))) None None true)).
  vm_compute. reflexivity.
Defined.

(** X8: what the filter guarantees of a Lesson that it lets through:
    with [show_top] off the Lesson has no date-only start, with
    [show_cancelled] off it is not cancelled; and in any case its
    description is absent or not empty, and its start is absent exactly
    when its end is. *)
Theorem produced_lesson_respects_flags (e : element) show_top
    show_cancelled l :
  _parse_element_to_lesson e show_top show_cancelled = Ok (Some l) →
  (show_top = false → ∀ d, lesson.start l ≠ Some (DateOnly d))
  ∧ (show_cancelled = false → lesson.status l ≠ Some cancelled)
  ∧ lesson.description l ≠ Some []
  ∧ (lesson.start l = None ↔ lesson.end_ l = None).
Proof.
  unfold _parse_element_to_lesson.
  destruct (data_additionalinfo e) as [title|];
    [|by destruct (truthy_opt (href e))].
  assert (∀ id link,
    (i ← _extract_lesson_info title;
     if negb show_top && info_is_top i then Ok None
     else if negb show_cancelled
             && bool_decide (info_status i = Some cancelled)
     then Ok None
     else Ok (Some (lesson.mkLesson id (info_summary i) (info_status i)
                      (info_start_time i) (info_end_time i)
                      (info_location i) (info_description i) link)))
    = Ok (Some l) →
    (show_top = false → ∀ d, lesson.start l ≠ Some (DateOnly d))
    ∧ (show_cancelled = false → lesson.status l ≠ Some cancelled)
    ∧ lesson.description l ≠ Some []
    ∧ (lesson.start l = None ↔ lesson.end_ l = None)) as Hmain.
  { intros id link.
    destruct (_extract_lesson_info title) as [i|err] eqn:Ei; simpl; [|done].
    pose proof (extract_times_shape _ _ Ei) as Hwf.
    assert (info_description i ≠ Some []) as Hd.
    { revert Ei. unfold _extract_lesson_info.
      destruct (leading (splitlines title)) as [[[st t] o]|?]; simpl;
        [|done].
      destruct (loop vars0 (drop o (splitlines title))) as [v|?]; simpl;
        [|done].
      intros [= <-]. rewrite compose_description.
      apply normalize_not_empty. }
    destruct (negb show_top && info_is_top i) eqn:Etop; [done|].
    destruct (negb show_cancelled
              && bool_decide (info_status i = Some cancelled)) eqn:Ec;
      [done|].
    intros [= <-]. simpl. split_and!; [| |done|].
    - intros ->. simpl in Etop. rewrite Etop in Hwf. intros d Hs.
      destruct Hwf as [(? & _)|[(? & _ & _ & ?)|(? & ? & ? & ? & ? & _)]];
        congruence.
    - intros ->. simpl in Ec. by apply bool_decide_eq_false in Ec.
    - destruct Hwf as [(-> & -> & _)
                      |[(? & -> & -> & _)|(? & ? & ? & ? & -> & -> & _)]];
        done. }
  destruct (truthy_opt (href e)); apply Hmain.
Qed.

Lemma produced_lesson_respects_flags_witness :
  lesson.status
    (lesson.mkLesson None (u "1a • 204") None
       (Some (DateTime (mkdate 2016 3 14) (mktime 15 20)))
       (Some (DateTime (mkdate 2016 3 14) (mktime 16 50)))
       (Some (u "204")) (Some [nl; nl]) None)
  ≠ Some cancelled.
Proof.
  destruct (produced_lesson_respects_flags
              (mkelement None
                 (Some (u "14/3-2016 15:20 til 16:50" ++ [nl]
                          ++ u "Lokale: 204" ++ [nl] ++ u "Hold: 1a")))
              false false
              (lesson.mkLesson None (u "1a • 204") None
                 (Some (DateTime (mkdate 2016 3 14) (mktime 15 20)))
                 (Some (DateTime (mkdate 2016 3 14) (mktime 16 50)))
                 (Some (u "204")) (Some [nl; nl]) None))
    as (_ & H & _); [vm_compute; reflexivity|].
  apply H. reflexivity.
Defined.

End extraction_results.

(** ** The tiles of a page *)

Section tiles.

Implicit Types (es : list element) (l : lesson.Lesson).

(** What the filter does to one tile: its text is extracted whatever the
    flags are, and the flags only decide whether the Lesson is kept. *)
Lemma parse_element_flags (e : element) show_top show_cancelled :
  match _parse_element_to_lesson e true true with
  | Ok None => False
  | Ok (Some l) =>
      _parse_element_to_lesson e show_top show_cancelled = Ok (Some l)
      ∨ _parse_element_to_lesson e show_top show_cancelled = Ok None
  | Raise err =>
      _parse_element_to_lesson e show_top show_cancelled = Raise err
  end.
Proof.
  unfold _parse_element_to_lesson.
  destruct (truthy_opt (href e));
    (destruct (data_additionalinfo e) as [title|]; [|done]);
    (destruct (_extract_lesson_info title) as [i|err]; simpl; [|done]);
    destruct (negb show_top && info_is_top i); eauto;
    destruct (negb show_cancelled && _); eauto.
Qed.

(** X9: showing more never loses a Lesson: if a page is parsed with some
    flags, it is parsed with both flags on as well, then every tile
    yields a Lesson, and the Lessons parsed with the other flags are
    among them, in the same order. *)
Theorem showing_all_keeps_lessons es show_top show_cancelled ls :
  parse_elements_to_lessons es show_top show_cancelled = Ok ls →
  ∃ ls', parse_elements_to_lessons es true true = Ok ls'
         ∧ length ls' = length es
         ∧ sublist ls ls'.
Proof.
  revert ls. induction es as [|e es IH]; intros ls; simpl.
  { intros [= <-]. by exists []. }
  pose proof (parse_element_flags e show_top show_cancelled) as He.
  destruct (_parse_element_to_lesson e true true) as [[l|]|err];
    [|done|by rewrite He].
  destruct (parse_elements_to_lessons es show_top show_cancelled)
    as [ls0|err] eqn:E0.
  2: { by destruct He as [-> | ->]. }
  destruct (IH ls0 eq_refl) as (ls' & -> & Hlen & Hsub). simpl.
  destruct He as [-> | ->]; simpl; intros [= <-]; eexists;
    (split_and!; [done|by simpl; rewrite Hlen|]).
  - by apply sublist_skip.
  - by apply sublist_cons.
Qed.

Lemma showing_all_keeps_lessons_witness :
  ∃ ls', parse_elements_to_lessons
           [mkelement None (Some (u "Aflyst!" ++ [nl] ++ u "Ma" ++ [nl]
                                    ++ u "14/3-2016 15:20 til 16:50"));
            mkelement None (Some (u "14/3-2016 Hele dagen"))]
           true true = Ok ls'
         ∧ length ls' = 2
         ∧ sublist [] ls'.
Proof.
  apply (showing_all_keeps_lessons
           [mkelement None (Some (u "Aflyst!" ++ [nl] ++ u "Ma" ++ [nl]
                                    ++ u "14/3-2016 15:20 til 16:50"));
            mkelement None (Some (u "14/3-2016 Hele dagen"))]
           false false []).
  vm_compute. reflexivity.
Defined.

Lemma parse_element_result (e : element) :
  (∃ err, ∀ a b, _parse_element_to_lesson e a b = Raise err)
  ∨ (∃ l, ∀ a b, _parse_element_to_lesson e a b = Ok (Some l)
                 ∨ _parse_element_to_lesson e a b = Ok None).
Proof.
  destruct (_parse_element_to_lesson e true true) as [[l|]|err] eqn:E.
  - right. exists l. intros a b.
    pose proof (parse_element_flags e a b) as H. by rewrite E in H.
  - pose proof (parse_element_flags e true true) as H. by rewrite E in H.
  - left. exists err. intros a b.
    pose proof (parse_element_flags e a b) as H. by rewrite E in H.
Qed.

(** X10: a page fails as a whole, and the flags have no part in it: the
    error of a tile comes out even when the filter would have hidden the
    tile. *)
Theorem page_failure_ignores_flags es st sc st' sc' err :
  parse_elements_to_lessons es st sc = Raise err →
  parse_elements_to_lessons es st' sc' = Raise err.
Proof.
  induction es as [|e es IH]; simpl; [done|].
  destruct (parse_element_result e) as [[err0 He]|[l He]].
  { by rewrite !He. }
  assert (∀ a b (k : option lesson.Lesson → result (list lesson.Lesson)),
            (_parse_element_to_lesson e a b ≫= k) = Raise err →
            ∃ o, _parse_element_to_lesson e a b = Ok o ∧ k o = Raise err)
    as Hinv.
  { intros a b k. destruct (He a b) as [-> | ->]; simpl; eauto. }
  intros (o & Ho & Hk)%Hinv.
  destruct (parse_elements_to_lessons es st sc) as [ls|err1] eqn:E;
    simpl in Hk; [done|].
  injection Hk as ->. rewrite (IH eq_refl).
  by destruct (He st' sc') as [-> | ->].
Qed.

Lemma page_failure_ignores_flags_witness :
  parse_elements_to_lessons
    [mkelement None (Some (u "14/3-2016 Hele dagen"));
     mkelement None (Some (u "Aflyst!" ++ [nl] ++ u "Ma" ++ [nl]
                             ++ u "31/2-2016 15:20 til 16:50"))]
    false false
  = Raise ValueError.
Proof.
  apply (page_failure_ignores_flags
           [mkelement None (Some (u "14/3-2016 Hele dagen"));
            mkelement None (Some (u "Aflyst!" ++ [nl] ++ u "Ma" ++ [nl]
                                    ++ u "31/2-2016 15:20 til 16:50"))]
           true true false false ValueError).
  vm_compute. reflexivity.
Defined.

End tiles.

(** ** Merging week by week *)

Section merging.

Implicit Types (a b l : list lesson.Lesson) (x : lesson.Lesson).

Lemma filter_not_in_ext a a' l :
  (∀ x, x ∈ a ↔ x ∈ a') →
  filter (fun x => x ∉ a) l = filter (fun x => x ∉ a') l.
Proof.
  intros H. apply list_filter_iff. intros x. by rewrite H.
Qed.

Lemma filter_app_formula a b :
  _filter_for_duplicates (a ++ b)
  = _filter_for_duplicates a
    ++ filter (fun x => x ∉ a) (_filter_for_duplicates b).
Proof.
  induction b as [|x b IH] using rev_ind.
  { by rewrite !app_nil_r. }
  rewrite (assoc_L (++)), !filter_snoc, IH.
  rewrite (bool_decide_ext (x ∈ _ ++ _) (x ∈ a ∨ x ∈ b)).
  2: { rewrite elem_of_app, list_elem_of_filter, !filter_elem_of.
       destruct (decide (x ∈ a)); tauto. }
  rewrite (bool_decide_ext (x ∈ _filter_for_duplicates b) (x ∈ b))
    by apply filter_elem_of.
  destruct (decide (x ∈ b)) as [Hb|Hb].
  { rewrite !bool_decide_eq_true_2 by tauto. done. }
  rewrite (bool_decide_eq_false_2 (x ∈ b)) by done.
  rewrite filter_app, filter_cons, filter_nil.
  destruct (decide (x ∈ a)) as [Ha|Ha].
  - rewrite bool_decide_eq_true_2 by tauto.
    rewrite decide_False by tauto. by rewrite app_nil_r.
  - rewrite bool_decide_eq_false_2 by tauto.
    rewrite decide_True by done. by rewrite (assoc_L (++)).
Qed.

(** X11: the merger can run week by week: the Lessons of the weeks
    merged so far keep their places when a further week is added, the
    further week adds its new Lessons behind them, and merging the merged
    weeks with a further week gives what merging all weeks at once
    gives. *)
Theorem merger_is_incremental a b :
  _filter_for_duplicates (a ++ b)
  = _filter_for_duplicates a
    ++ filter (fun x => x ∉ a) (_filter_for_duplicates b)
  ∧ _filter_for_duplicates (_filter_for_duplicates a ++ b)
    = _filter_for_duplicates (a ++ b).
Proof.
  split; [apply filter_app_formula|].
  rewrite !filter_app_formula, filter_fixed by apply filter_NoDup.
  f_equal. apply filter_not_in_ext. intros x. apply filter_elem_of.
Qed.

(** X12: the merger gives back its input as it is exactly when the input
    holds no Lesson twice. *)
Theorem merger_fixed_iff_no_duplicates l :
  _filter_for_duplicates l = l ↔ NoDup l.
Proof.
  split.
  - intros <-. apply filter_NoDup.
  - apply filter_fixed.
Qed.

End merging.


(** ** The clean-up of the summary *)

Section cleaning.

Lemma contains_suffix (sub pre t : str) :
  contains sub (pre ++ t) = false → contains sub t = false.
Proof.
  intros H. destruct (contains sub t) eqn:E; [|done].
  apply contains_true in E as (p & q & ->).
  assert (contains sub (pre ++ p ++ sub ++ q) = true) as E'; [|congruence].
  apply contains_true. exists (pre ++ p), q. by rewrite <- (assoc_L (++)).
Qed.

Lemma contains_startswith (sub s : str) :
  contains sub s = false → startswith s sub = false.
Proof. destruct s; simpl; by intros [? _]%orb_false_iff. Qed.

Lemma replace_go_absent (old new s : str) :
  contains old s = false → replace_go old new 0 s = s.
Proof.
  induction s as [|x s IH]; [done|]. intros H.
  pose proof (contains_startswith _ _ H) as Hs.
  cbn [replace_go]. rewrite Hs. f_equal. apply IH.
  by apply (contains_suffix old [x] s).
Qed.

Lemma sub_go_absent r (repl : caps → str) (s : str) :
  (∀ pre t, s = pre ++ t → match_ r t = None) → sub_go r repl 0 s = s.
Proof.
  induction s as [|x s IH]; [done|]. intros H.
  cbn [sub_go]. rewrite (H [] (x :: s) eq_refl). f_equal.
  apply IH. intros pre t ->. by apply (H (x :: pre) t).
Qed.

Lemma sub_go_skip r (repl : caps → str) (a rest : str) :
  sub_go r repl (length a) (a ++ rest) = sub_go r repl 0 rest.
Proof. induction a as [|x a IH]; [done|]. apply IH. Qed.

Lemma teacher_match_prefix (s : str) (m : caps * str) :
  match_ teacher_re s = Some m → startswith s (u "Lærer: ") = true.
Proof.
  unfold match_, teacher_re. intros (m1 & H1 & _)%head_mtch_Seq.
  apply elem_of_mtch_Lit in H1 as [_ ->].
  apply startswith_true. eexists. reflexivity.
Qed.

(** X16: the clean-up of the summary changes nothing in a summary that
    holds neither "Lærere: " nor "Lærer: ". *)
Theorem summary_without_teachers_is_kept (s : str) :
  contains (u "Lærere: ") s = false →
  contains (u "Lærer: ") s = false →
  clean_summary s = s.
Proof.
  intros H1 H2. unfold clean_summary, replace, sub.
  rewrite (replace_go_absent _ _ _ H1).
  apply sub_go_absent. intros pre t ->.
  destruct (match_ teacher_re t) as [m|] eqn:E; [|done].
  apply teacher_match_prefix in E.
  apply contains_suffix, contains_startswith in H2. congruence.
Qed.

Lemma summary_without_teachers_is_kept_witness :
  clean_summary (u "Ma • 1g") = u "Ma • 1g".
Proof.
  apply (summary_without_teachers_is_kept (u "Ma • 1g"));
    vm_compute; reflexivity.
Defined.

(** Evaluates the string literals of the goal. *)
Ltac eval_u :=
  repeat match goal with
         | |- context [u ?l] =>
             let b := eval vm_compute in (u l) in change (u l) with b
         | |- context [cp ?l] =>
             let b := eval vm_compute in (cp l) in change (cp l) with b
         end.

(** An occurrence of "Lærer: " that begins before another one lies
    wholly before it. *)
Lemma teacher_marker_no_overlap (p rest r : str) :
  p ≠ [] → p ++ u "Lærer: " ++ rest = u "Lærer: " ++ r →
  ∃ q, p = u "Lærer: " ++ q.
Proof.
  eval_u. intros Hp H.
  do 7 (destruct p as [|? p]; [by (done || (cbn in H; simplify_eq))|]).
  cbn in H. simplify_eq. by exists p.
Qed.

Lemma not_in_cset (a : char) (s : str) :
  a ∉ s → Forall (fun x => in_cset (NotChr a) x = true) s.
Proof.
  intros H. apply Forall_forall. intros x Hx. cbn [in_cset].
  apply negb_true_iff, N.eqb_neq. by intros ->.
Qed.

(** The first match of the teacher pattern on an entry: group 1 is the
    text between the parentheses. *)
Lemma teacher_match (name ini post : str) :
  cp "(" ∉ name → cp ")" ∉ ini →
  match_ teacher_re (u "Lærer: " ++ name ++ u "(" ++ ini ++ u ")" ++ post)
  = Some ([(1%nat, ini)], post).
Proof.
  eval_u. intros Hn%not_in_cset Hi%not_in_cset. unfold match_, teacher_re.
  cbn [mtch].
  rewrite (proj2 (strip_prefix_Some _ _ _) eq_refl).
  cbn [mbind list_bind fst snd app].
  destruct (star_cls_run (NotChr 40%N) [] name (40%N :: ini ++ 41%N :: post) Hn)
    as [tl Htl]; [done|].
  unfold str, caps, char in *. rewrite Htl. clear Htl.
  cbn [mbind list_bind fst snd strip_prefix].
  rewrite N.eqb_refl.
  cbn [mbind list_bind fst snd strip_prefix].
  destruct (star_cls_run (NotChr 41%N) [] ini (41%N :: post) Hi)
    as [tl' Htl]; [done|].
  unfold str, caps, char in *. rewrite Htl. clear Htl.
  cbn [fmap list_fmap mbind list_bind fst snd strip_prefix app].
  rewrite N.eqb_refl. cbn [app head].
  do 3 f_equal. f_equal.
  rewrite length_app. cbn [length].
  replace (length ini + S (length post) - S (length post))%nat
    with (length ini) by lia.
  by rewrite take_app_length.
Qed.

Lemma sub_go_prefix (pre s : str) :
  (∀ p q, pre = p ++ q → q ≠ [] → match_ teacher_re (q ++ s) = None) →
  sub_go teacher_re group1 0 (pre ++ s) = pre ++ sub_go teacher_re group1 0 s.
Proof.
  induction pre as [|x pre IH]; [done|]. intros H.
  pose proof (H [] (x :: pre) eq_refl ltac:(done)) as H0.
  cbn [app sub_go] in *. rewrite H0.
  f_equal. apply IH. intros p q -> Hq. by apply (H (x :: p) q).
Qed.

(** X17: a teacher entry, "Lærer: " with a name free of "(" and then
    initials in parentheses, is cut down to the initials; the text in
    front of the first entry stays, and the rest is cleaned in the same
    way.  ("Lærere: " is removed first, so the summary is taken not to
    hold it.) *)
Theorem teacher_entry_becomes_initials (pre name ini post : str) :
  contains (u "Lærer: ") pre = false →
  cp "(" ∉ name → cp ")" ∉ ini →
  contains (u "Lærere: ")
    (pre ++ u "Lærer: " ++ name ++ u "(" ++ ini ++ u ")" ++ post) = false →
  clean_summary (pre ++ u "Lærer: " ++ name ++ u "(" ++ ini ++ u ")" ++ post)
  = pre ++ ini ++ clean_summary post.
Proof.
  intros Hpre Hn Hi Hold. unfold clean_summary, replace, sub.
  rewrite (replace_go_absent _ _ _ Hold).
  rewrite (replace_go_absent _ _ post).
  2:{ apply (contains_suffix _
               (pre ++ u "Lærer: " ++ name ++ u "(" ++ ini ++ u ")")).
      by rewrite <- !(assoc_L (++)). }
  rewrite sub_go_prefix.
  2:{ intros p q -> Hq.
      destruct (match_ teacher_re _) as [m|] eqn:E; [|done].
      apply teacher_match_prefix, startswith_true in E as [r E].
      apply teacher_marker_no_overlap in E as [q' ->]; [|done].
      assert (contains (u "Lærer: ") (p ++ u "Lærer: " ++ q') = true)
        as E'; [|congruence].
      apply contains_true. by exists p, q'. }
  f_equal.
  pose proof (teacher_match name ini post Hn Hi) as Hm.
  remember (u "Lærer: " ++ name ++ u "(" ++ ini ++ u ")" ++ post) as s eqn:Es.
  assert (Hs : ∃ body : str, s = 76%N :: body ++ post) .
  { exists ([230; 114; 101; 114; 58; 32]%N ++ name ++ [40%N] ++ ini ++ [41%N]).
    subst s. eval_u. by rewrite <- !(assoc_L (++)). }
  destruct Hs as [body ->].
  cbn [sub_go]. rewrite Hm. cbn [fst snd].
  unfold group1 at 1. cbn [group Nat.eqb default]. f_equal.
  cbn [length]. rewrite length_app.
  replace (S (length body + length post) - length post - 1)%nat
    with (length body) by lia.
  apply sub_go_skip.
Qed.

Lemma teacher_entry_becomes_initials_witness :
  clean_summary (u "1g • " ++ u "Lærer: " ++ u "Jens Hansen " ++ u "("
                   ++ u "JH" ++ u ")" ++ u " • Ma")
  = u "1g • " ++ u "JH" ++ clean_summary (u " • Ma").
Proof.
  apply (teacher_entry_becomes_initials
           (u "1g • ") (u "Jens Hansen ") (u "JH") (u " • Ma"));
    first [vm_compute; reflexivity
          | refine (bool_decide_unpack _ _); vm_compute; exact I].
Defined.

End cleaning.

(** ** Ordinals and the ISO calendar *)

Section calendar.

Local Open Scope Z_scope.

(** Looks up the entries of the month tables. *)
Ltac eval_tables :=
  repeat match goal with
         | |- context [table ?t ?k] =>
             let v := eval vm_compute in (table t k) in
             change (table t k) with v in *
         | H : context [table ?t ?k] |- _ =>
             let v := eval vm_compute in (table t k) in
             change (table t k) with v in *
         end.

Lemma dby_step y :
  days_before_year (y + 1) - days_before_year y
  = if is_leap_year y then 366 else 365.
Proof.
  unfold days_before_year, is_leap_year.
  replace (y + 1 - 1) with y by lia.
  destruct (Z.eqb_spec (y mod 4) 0), (Z.eqb_spec (y mod 100) 0),
    (Z.eqb_spec (y mod 400) 0); simpl; Z.div_mod_to_equations; lia.
Qed.

Lemma is_leap_year_true y :
  y mod 4 = 0 → (y mod 100 ≠ 0 ∨ y mod 400 = 0) → is_leap_year y = true.
Proof.
  intros H4 H. unfold is_leap_year.
  apply andb_true_iff. split; [by apply Z.eqb_eq|].
  apply orb_true_iff. destruct H as [H|H].
  - left. apply negb_true_iff. by apply Z.eqb_neq.
  - right. by apply Z.eqb_eq.
Qed.

Lemma all_from_spec f fuel n k :
  all_from f fuel n = true → n ≤ k < n + Z.of_nat fuel → f k = true.
Proof.
  revert n. induction fuel as [|fuel IH]; intros n H Hk; [lia|].
  simpl in H. apply andb_true_iff in H as [H1 H2].
  destruct (decide (k = n)) as [->|]; [done|].
  apply (IH (n + 1)); [done|lia].
Qed.

Lemma month_day_checked leap n :
  0 ≤ n ≤ 364 → month_day_ok leap n = true.
Proof.
  intros H.
  assert (Hc : all_from (month_day_ok true) 365 0 && all_from (month_day_ok false) 365 0 = true)
    by (vm_compute; reflexivity).
  apply andb_true_iff in Hc as [H1 H2].
  destruct leap; eapply all_from_spec; eauto; lia.
Qed.

Lemma ord2ymd_eq n :
  ord2ymd n =
  let r := n - 1 in
  let n400 := r / 146097 in
  let r0 := r mod 146097 in
  let n100 := r0 / 36524 in
  let r1 := r0 mod 36524 in
  let n4 := r1 / 1461 in
  let r2 := r1 mod 1461 in
  let n1 := r2 / 365 in
  let r3 := r2 mod 365 in
  let year := n400 * 400 + 1 + n100 * 100 + n4 * 4 + n1 in
  if (n1 =? 4) || (n100 =? 4) then (year - 1, 12, 31)
  else
    let leapyear := (n1 =? 3) && (negb (n4 =? 24) || (n100 =? 3)) in
    (year, (month_day leapyear r3).1, (month_day leapyear r3).2).
Proof.
  unfold ord2ymd, month_day, DI400Y, DI100Y, DI4Y. cbv zeta.
  destruct (_ || _); [done|].
  by destruct (_ <? _).
Qed.

(** [_ord2ymd] inverts [_ymd2ord], and its month and day are in range. *)
Lemma ord2ymd_spec n :
  1 ≤ n →
  1 ≤ (ord2ymd n).1.1
  ∧ valid_md (ord2ymd n).1.1 (ord2ymd n).1.2 (ord2ymd n).2 = true
  ∧ ymd2ord (ord2ymd n).1.1 (ord2ymd n).1.2 (ord2ymd n).2 = n.
Proof.
  intros Hn. rewrite ord2ymd_eq. cbv zeta.
  set (r := n - 1).
  set (n400 := r / 146097). set (r0 := r mod 146097).
  set (n100 := r0 / 36524). set (r1 := r0 mod 36524).
  set (n4 := r1 / 1461). set (r2 := r1 mod 1461).
  set (n1 := r2 / 365). set (r3 := r2 mod 365).
  assert (Hb : 0 ≤ n400 ∧ 0 ≤ n100 ≤ 4 ∧ 0 ≤ n4 ≤ 24 ∧ 0 ≤ n1 ≤ 4
               ∧ 0 ≤ r3 ≤ 364
               ∧ n - 1 = 146097 * n400 + 36524 * n100 + 1461 * n4 + 365 * n1 + r3
               ∧ (n100 = 4 → n4 = 0 ∧ n1 = 0 ∧ r3 = 0)
               ∧ (n1 = 4 → r3 = 0 ∧ n4 ≤ 23)).
  { subst n400 r0 n100 r1 n4 r2 n1 r3 r. Z.div_mod_to_equations. lia. }
  clearbody n400 n100 n4 n1 r3. clear r r0 r1 r2.
  destruct Hb as (H400 & H100 & H4 & H1 & H3 & Hn' & Hs100 & Hs1).
  set (year := n400 * 400 + 1 + n100 * 100 + n4 * 4 + n1).
  destruct ((n1 =? 4) || (n100 =? 4)) eqn:Hsp.
  - cbn [fst snd].
    assert (Hl : is_leap_year (year - 1) = true).
    { apply is_leap_year_true; subst year;
      apply orb_true_iff in Hsp as [?%Z.eqb_eq | ?%Z.eqb_eq];
        Z.div_mod_to_equations; lia. }
    split; [|split].
    + subst year. apply orb_true_iff in Hsp as [?%Z.eqb_eq | ?%Z.eqb_eq]; lia.
    + unfold valid_md. by cbn.
    + unfold ymd2ord, days_before_month. rewrite Hl.
      change (table DAYS_BEFORE_MONTH 12 + (if (2 <? 12) && true then 1 else 0))
        with 335.
      unfold days_before_year. subst year.
      apply orb_true_iff in Hsp as [?%Z.eqb_eq | ?%Z.eqb_eq];
        Z.div_mod_to_equations; lia.
  - apply orb_false_iff in Hsp as [?%Z.eqb_neq ?%Z.eqb_neq].
    cbv zeta.
    set (leap := (n1 =? 3) && (negb (n4 =? 24) || (n100 =? 3))).
    assert (Hl : is_leap_year year = leap).
    { subst leap year. unfold is_leap_year.
      destruct (Z.eqb_spec n1 3), (Z.eqb_spec n4 24), (Z.eqb_spec n100 3);
        cbn [andb orb negb];
        repeat match goal with
               | |- context [?a =? 0] => destruct (Z.eqb_spec a 0)
               end; cbn [andb orb negb]; try reflexivity;
        exfalso; Z.div_mod_to_equations; lia. }
    pose proof (month_day_checked leap r3 H3) as Hmd.
    unfold month_day_ok in Hmd. cbv zeta in Hmd.
    cbn [fst snd].
    set (m := (month_day leap r3).1) in *.
    set (d := (month_day leap r3).2) in *.
    repeat (apply andb_true_iff in Hmd as [Hmd ?]).
    split; [subst year; lia|]. split.
    + unfold valid_md. rewrite Hl.
      repeat (apply andb_true_iff; split); done.
    + unfold ymd2ord, days_before_month. rewrite Hl.
      match goal with H : (_ =? _) = true |- _ => apply Z.eqb_eq in H end.
      unfold days_before_year. subst year.
      Z.div_mod_to_equations; lia.
Qed.

Lemma dby_mono a b : a ≤ b → days_before_year a ≤ days_before_year b.
Proof.
  intros H. destruct (decide (a = b)) as [->|]; [done|].
  unfold days_before_year. Z.div_mod_to_equations. lia.
Qed.

Lemma ymd2ord_in_year y m d :
  valid_md y m d = true →
  days_before_year y + 1 ≤ ymd2ord y m d ≤ days_before_year (y + 1).
Proof.
  unfold valid_md. intros H.
  apply andb_true_iff in H as [H Hd2%Z.leb_le].
  apply andb_true_iff in H as [H Hd1%Z.leb_le].
  apply andb_true_iff in H as [Hm1%Z.leb_le Hm2%Z.leb_le].
  pose proof (dby_step y) as Hs.
  unfold ymd2ord, days_before_month.
  assert (Hm : m ∈ [1; 2; 3; 4; 5; 6; 7; 8; 9; 10; 11; 12]).
  { assert (m = 1 ∨ m = 2 ∨ m = 3 ∨ m = 4 ∨ m = 5 ∨ m = 6 ∨ m = 7 ∨ m = 8
            ∨ m = 9 ∨ m = 10 ∨ m = 11 ∨ m = 12) as Hm by lia.
    repeat (destruct Hm as [->|Hm]; [repeat constructor|]).
    subst. repeat constructor. }
  repeat (apply elem_of_cons in Hm as [->|Hm]);
    [..|by apply elem_of_nil in Hm];
    destruct (is_leap_year y); eval_tables; cbn in *; lia.
Qed.

Lemma isoweek1monday_spec y :
  days_before_year y - 2 ≤ isoweek1monday y ≤ days_before_year y + 4
  ∧ isoweek1monday y mod 7 = 1.
Proof.
  unfold isoweek1monday, ymd2ord, days_before_month. cbv zeta.
  change (table DAYS_BEFORE_MONTH 1 + (if (2 <? 1) && is_leap_year y then 1 else 0))
    with 0.
  destruct (Z.ltb_spec 3 ((days_before_year y + 0 + 1 + 6) mod 7));
    Z.div_mod_to_equations; lia.
Qed.

(** The ISO year, week and weekday locate the day from the Monday of
    week 1, and the day comes before week 1 of the next ISO year. *)
Lemma isocalendar_spec d :
  valid_md (Z.of_N (year d)) (Z.of_N (month d)) (Z.of_N (day d)) = true →
  let iy := (isocalendar d).1.1 in
  let w := (isocalendar d).1.2 in
  let wd := (isocalendar d).2 in
  Z.of_N (year d) - 1 ≤ iy ≤ Z.of_N (year d) + 1
  ∧ 1 ≤ w ≤ 53 ∧ 1 ≤ wd ≤ 7
  ∧ isoweek1monday iy + 7 * (w - 1) + (wd - 1) = toordinal d
  ∧ toordinal d < isoweek1monday (iy + 1).
Proof.
  intros Hv. apply ymd2ord_in_year in Hv.
  fold (toordinal d) in Hv.
  unfold isocalendar. cbv zeta.
  set (y := Z.of_N (year d)) in *. set (T := toordinal d) in *.
  pose proof (isoweek1monday_spec (y - 1)).
  pose proof (isoweek1monday_spec y).
  pose proof (isoweek1monday_spec (y + 1)).
  pose proof (isoweek1monday_spec (y + 1 + 1)).
  pose proof (dby_step (y - 1)) as S1.
  replace (y - 1 + 1) with y in * by lia.
  pose proof (dby_step y) as S2.
  pose proof (dby_step (y + 1)) as S3.
  assert (365 ≤ days_before_year y - days_before_year (y - 1) ≤ 366)
    by (rewrite S1; destruct (is_leap_year (y - 1)); lia).
  assert (365 ≤ days_before_year (y + 1) - days_before_year y ≤ 366)
    by (rewrite S2; destruct (is_leap_year y); lia).
  assert (365 ≤ days_before_year (y + 1 + 1) - days_before_year (y + 1) ≤ 366)
    by (rewrite S3; destruct (is_leap_year (y + 1)); lia).
  clear S1 S2 S3.
  assert (Hgoal : ∀ B0 B1 B2 B3 M0 M1 M2 M3 : Z,
    365 ≤ B1 - B0 ≤ 366 → 365 ≤ B2 - B1 ≤ 366 → 365 ≤ B3 - B2 ≤ 366 →
    B0 - 2 ≤ M0 ≤ B0 + 4 → M0 mod 7 = 1 →
    B1 - 2 ≤ M1 ≤ B1 + 4 → M1 mod 7 = 1 →
    B2 - 2 ≤ M2 ≤ B2 + 4 → M2 mod 7 = 1 →
    B3 - 2 ≤ M3 ≤ B3 + 4 → M3 mod 7 = 1 →
    B1 + 1 ≤ T ≤ B2 →
    (T < M1 → 1 ≤ (T - M0) / 7 + 1 ≤ 53 ∧ 1 ≤ (T - M0) mod 7 + 1 ≤ 7
              ∧ M0 + 7 * ((T - M0) / 7 + 1 - 1) + ((T - M0) mod 7 + 1 - 1) = T)
    ∧ (M1 ≤ T → M2 ≤ T →
         1 ≤ (T - M1) mod 7 + 1 ≤ 7 ∧ M2 + 7 * (1 - 1) + ((T - M1) mod 7 + 1 - 1) = T
         ∧ T < M3 ∧ 52 ≤ (T - M1) / 7)
    ∧ (M1 ≤ T → T < M2 →
         1 ≤ (T - M1) / 7 + 1 ≤ 53 ∧ 1 ≤ (T - M1) mod 7 + 1 ≤ 7
         ∧ M1 + 7 * ((T - M1) / 7 + 1 - 1) + ((T - M1) mod 7 + 1 - 1) = T)
    ∧ (M1 ≤ T → (T - M1) / 7 < 52 → T < M2)).
  { clear. intros. Z.div_mod_to_equations. lia. }
  specialize (Hgoal (days_before_year (y - 1)) (days_before_year y)
                (days_before_year (y + 1)) (days_before_year (y + 1 + 1))
                (isoweek1monday (y - 1)) (isoweek1monday y)
                (isoweek1monday (y + 1)) (isoweek1monday (y + 1 + 1))).
  destruct Hgoal as (G1 & G2 & G3 & G4); try tauto.
  destruct (Z.ltb_spec ((T - isoweek1monday y) / 7) 0) as [Hw|Hw].
  - cbn [fst snd]. replace (y - 1 + 1) with y by lia.
    assert (T < isoweek1monday y) by (Z.div_mod_to_equations; lia).
    specialize (G1 ltac:(done)). lia.
  - assert (isoweek1monday y ≤ T) by (Z.div_mod_to_equations; lia).
    destruct (Z.leb_spec 52 ((T - isoweek1monday y) / 7)),
      (Z.leb_spec (isoweek1monday (y + 1)) T); cbn [andb fst snd].
    + specialize (G2 ltac:(done) ltac:(done)). lia.
    + specialize (G3 ltac:(done) ltac:(done)). lia.
    + specialize (G4 ltac:(done) ltac:(done)). lia.
    + specialize (G3 ltac:(done) ltac:(done)). lia.
Qed.

Lemma N_mod_eqb (y k : N) :
  (y mod k =? 0)%N = (Z.of_N y mod Z.of_N k =? 0).
Proof.
  rewrite <- N2Z.inj_mod.
  destruct (N.eqb_spec (y mod k) 0), (Z.eqb_spec (Z.of_N (y mod k)) 0);
    try reflexivity; lia.
Qed.

Lemma is_leap_eq (y : N) : is_leap y = is_leap_year (Z.of_N y).
Proof.
  unfold is_leap, is_leap_year. rewrite !N_mod_eqb.
  change (Z.of_N 4) with 4. change (Z.of_N 100) with 100.
  change (Z.of_N 400) with 400.
  destruct (Z.eqb_spec (Z.of_N y mod 4) 0),
    (Z.eqb_spec (Z.of_N y mod 100) 0),
    (Z.eqb_spec (Z.of_N y mod 400) 0);
    cbn [andb orb negb]; try reflexivity; exfalso;
    Z.div_mod_to_equations; lia.
Qed.

Lemma valid_valid_md d :
  valid d = true →
  1 ≤ Z.of_N (year d) ≤ 9999
  ∧ valid_md (Z.of_N (year d)) (Z.of_N (month d)) (Z.of_N (day d)) = true.
Proof.
  unfold valid, valid_date, valid_md. destruct d as [y m d]. cbn [year month day].
  intros H.
  apply andb_true_iff in H as [H Hd2%N.leb_le].
  apply andb_true_iff in H as [H Hd1%N.leb_le].
  apply andb_true_iff in H as [H Hm2%N.leb_le].
  apply andb_true_iff in H as [H Hm1%N.leb_le].
  apply andb_true_iff in H as [Hy1%N.leb_le Hy2%N.leb_le].
  split; [lia|].
  rewrite <- is_leap_eq.
  assert (Hm : (m = 1 ∨ m = 2 ∨ m = 3 ∨ m = 4 ∨ m = 5 ∨ m = 6 ∨ m = 7 ∨ m = 8
            ∨ m = 9 ∨ m = 10 ∨ m = 11 ∨ m = 12)%N) by lia.
  repeat (apply andb_true_iff; split); try (apply Z.leb_le; lia).
  apply Z.leb_le.
  repeat (destruct Hm as [->|Hm]); try subst m;
    unfold days_in_month in Hd2; destruct (is_leap y);
    match type of Hd2 with
    | (_ ≤ ?v)%N => let v' := eval vm_compute in v in change v with v' in Hd2
    end;
    eval_tables; cbn; lia.
Qed.

Lemma fromordinal_spec n :
  1 ≤ n →
  toordinal (fromordinal n) = n
  ∧ valid_md (Z.of_N (year (fromordinal n))) (Z.of_N (month (fromordinal n)))
      (Z.of_N (day (fromordinal n))) = true.
Proof.
  intros Hn. destruct (ord2ymd_spec n Hn) as (Hy & Hv & Ho).
  unfold toordinal, fromordinal.
  destruct (ord2ymd n) as [[y m] d]. cbn [fst snd year month day] in *.
  unfold valid_md in Hv.
  pose proof Hv as Hv'.
  apply andb_true_iff in Hv' as [Hv' _].
  apply andb_true_iff in Hv' as [Hv' Hd1%Z.leb_le].
  apply andb_true_iff in Hv' as [Hm1%Z.leb_le _].
  rewrite !Z2N.id by lia. done.
Qed.

Lemma toordinal_bounds d :
  valid d = true → 1 ≤ toordinal d ≤ MAXORDINAL.
Proof.
  intros [Hy Hv]%valid_valid_md. apply ymd2ord_in_year in Hv.
  fold (toordinal d) in Hv.
  pose proof (dby_mono 1 (Z.of_N (year d)) ltac:(lia)) as H1.
  pose proof (dby_mono (Z.of_N (year d) + 1) 10000 ltac:(lia)) as H2.
  change (days_before_year 1) with 0 in H1.
  change (days_before_year 10000) with MAXORDINAL in H2. lia.
Qed.

Lemma add_weeks_spec today offset :
  valid today = true →
  add_weeks today offset
  = if (1 <=? toordinal today + 7 * offset)
       && (toordinal today + 7 * offset <=? MAXORDINAL)
    then Some (fromordinal (toordinal today + 7 * offset)) else None.
Proof.
  intros Hb%toordinal_bounds. unfold add_weeks. cbv zeta.
  unfold MAXORDINAL in *.
  destruct (Z.ltb_spec 999999999 (Z.abs (7 * offset))),
    (Z.ltb_spec 0 (toordinal today + 7 * offset)),
    (Z.leb_spec 1 (toordinal today + 7 * offset)),
    (Z.leb_spec (toordinal today + 7 * offset) 3652059);
    cbn [andb]; try reflexivity; lia.
Qed.

Lemma uint_chars_inj d1 d2 : uint_chars d1 = uint_chars d2 → d1 = d2.
Proof.
  revert d2. induction d1 as [|d1 IH|d1 IH|d1 IH|d1 IH|d1 IH|d1 IH|d1 IH|d1 IH|d1 IH|d1 IH];
    intros [] H; cbn [uint_chars] in H; try discriminate; try reflexivity;
    f_equal; apply IH; congruence.
Qed.

Lemma str_of_int_inj a b :
  0 ≤ a → 0 ≤ b → str_of_int a = str_of_int b → a = b.
Proof.
  intros Ha Hb. unfold str_of_int, sign_chars, digit_chars.
  destruct (Z.ltb_spec a 0), (Z.ltb_spec b 0); try lia.
  cbn [app]. intros E%uint_chars_inj.
  apply (f_equal N.of_uint) in E. rewrite !DecimalN.Unsigned.of_to in E. lia.
Qed.

Lemma format_02d_two_digits w : 0 ≤ w ≤ 99 → format_02d w = two_digits w.
Proof.
  intros H.
  assert (Hc : all_from two_digits_ok 100 0 = true) by (vm_compute; reflexivity).
  apply (all_from_spec _ _ _ w) in Hc; [|lia].
  unfold two_digits_ok in Hc. by apply bool_decide_eq_true in Hc.
Qed.

Lemma two_digits_inj a b :
  0 ≤ a ≤ 99 → 0 ≤ b ≤ 99 → two_digits a = two_digits b → a = b.
Proof.
  intros Ha Hb. unfold two_digits. intros [= H1 H2].
  apply (f_equal Z.of_N) in H1, H2.
  rewrite !Z2N.id in H1, H2 by (Z.div_mod_to_equations; lia).
  Z.div_mod_to_equations; lia.
Qed.

(** [_isoweek1monday] gives the Monday of the week with 4 January. *)
Lemma isoweek1monday_week_one y : week_one_monday y (isoweek1monday y).
Proof.
  destruct (isoweek1monday_spec y) as [H1 H2]. split; [done|].
  unfold ymd2ord, days_before_month.
  change (table DAYS_BEFORE_MONTH 1 + (if (2 <? 1) && is_leap_year y then 1 else 0))
    with 0.
  lia.
Qed.

End calendar.

(** ** Week strings *)

Section week_strings.

Local Open Scope Z_scope.

(** What the week string holds, in terms of [isoweek1monday]. *)
Lemma week_format_facts today offset s :
  valid today = true →
  _get_lectio_weekformat_with_offset today offset = Some s →
  ∃ y w, s = two_digits w ++ str_of_int y
         ∧ 0 ≤ y ∧ 1 ≤ w ≤ 53
         ∧ isoweek1monday y + 7 * (w - 1) ≤ toordinal today + 7 * offset
           < isoweek1monday y + 7 * w
         ∧ toordinal today + 7 * offset < isoweek1monday (y + 1).
Proof.
  intros Hv. unfold _get_lectio_weekformat_with_offset.
  rewrite (add_weeks_spec _ _ Hv).
  destruct (Z.leb_spec 1 (toordinal today + 7 * offset)) as [Hn|];
    [|intros E; cbn [andb mbind option_bind] in E; discriminate E].
  destruct (_ <=? MAXORDINAL);
    [|intros E; cbn [andb mbind option_bind] in E; discriminate E].
  cbn [andb mbind option_bind]. intros E. apply (inj Some) in E. subst s.
  destruct (fromordinal_spec _ Hn) as [Ho Hmd].
  pose proof (isocalendar_spec _ Hmd) as Hi. cbv zeta in Hi.
  rewrite Ho in Hi. destruct Hi as (Hy & Hw & Hwd & Hsum & Hnext).
  assert (1 ≤ Z.of_N (year (fromordinal (toordinal today + 7 * offset)))).
  { unfold fromordinal. destruct (ord2ymd_spec _ Hn) as (Hy1 & _).
    destruct (ord2ymd _) as [[y m] d]. cbn [fst snd year] in *.
    rewrite Z2N.id; lia. }
  eexists _, _. split; [rewrite format_02d_two_digits by lia; reflexivity|].
  split; [lia|]. split; [lia|]. split; [lia|exact Hnext].
Qed.

(** X13: for a valid [today], the week string is the two digits of a
    week number [w] of at most 53 followed by the decimal digits of a
    year [y], and the day [offset] weeks after [today] lies in week [w]
    of the ISO year [y]: counting whole weeks from the Monday of the
    week that holds 4 January of [y], and before the Monday that starts
    week 1 of the next ISO year. *)
Theorem week_string_names_iso_week today offset s :
  valid today = true →
  _get_lectio_weekformat_with_offset today offset = Some s →
  ∃ y w, s = two_digits w ++ str_of_int y
         ∧ 0 ≤ y ∧ w ≤ 53
         ∧ in_iso_week (toordinal today + 7 * offset) y w.
Proof.
  intros Hv Hs.
  destruct (week_format_facts _ _ _ Hv Hs) as (y & w & -> & Hy & Hw & Hin & Hn).
  exists y, w. split_and!; [done|done|lia|].
  exists (isoweek1monday y), (isoweek1monday (y + 1)).
  split_and!; try lia; apply isoweek1monday_week_one.
Qed.

Lemma week_string_names_iso_week_witness :
  ∃ y w, u "112016" = two_digits w ++ str_of_int y
         ∧ 0 ≤ y ∧ w ≤ 53
         ∧ in_iso_week (toordinal (mkdate 2016 3 14) + 7 * 0) y w.
Proof.
  apply (week_string_names_iso_week (mkdate 2016 3 14) 0 (u "112016"));
    vm_compute; reflexivity.
Defined.

(** X14: for a valid [today], two different offsets never give the same
    week string. *)
Theorem week_strings_distinct today o1 o2 s1 s2 :
  valid today = true →
  _get_lectio_weekformat_with_offset today o1 = Some s1 →
  _get_lectio_weekformat_with_offset today o2 = Some s2 →
  o1 ≠ o2 → s1 ≠ s2.
Proof.
  intros Hv H1 H2 Hne Heq.
  destruct (week_format_facts _ _ _ Hv H1) as (y1 & w1 & -> & Hy1 & Hw1 & Hin1 & _).
  destruct (week_format_facts _ _ _ Hv H2) as (y2 & w2 & -> & Hy2 & Hw2 & Hin2 & _).
  apply app_inj_1 in Heq as [Ew Ey]; [|done].
  apply two_digits_inj in Ew; [|lia..].
  apply str_of_int_inj in Ey; [|lia..].
  subst. lia.
Qed.

Lemma week_strings_distinct_witness : u "522016" ≠ u "012017".
Proof.
  apply (week_strings_distinct (mkdate 2016 12 29) 0 1);
    vm_compute; first [reflexivity | discriminate].
Defined.

(** X15: for a valid [today], the date arithmetic overflows exactly when
    the day [offset] weeks after [today] lies before 1 January of year 1
    or after 31 December 9999. *)
Theorem week_string_overflow today offset :
  valid today = true →
  _get_lectio_weekformat_with_offset today offset = None
  ↔ toordinal today + 7 * offset < toordinal (mkdate 1 1 1)
    ∨ toordinal (mkdate 9999 12 31) < toordinal today + 7 * offset.
Proof.
  intros Hv. unfold _get_lectio_weekformat_with_offset.
  rewrite add_weeks_spec by done.
  change (toordinal (mkdate 1 1 1)) with 1.
  change (toordinal (mkdate 9999 12 31)) with MAXORDINAL.
  destruct (Z.leb_spec 1 (toordinal today + 7 * offset)),
    (Z.leb_spec (toordinal today + 7 * offset) MAXORDINAL);
    cbn [andb mbind option_bind]; split; intros; try done; lia.
Qed.

Lemma week_string_overflow_witness :
  _get_lectio_weekformat_with_offset (mkdate 9999 12 27) 1 = None
  ↔ toordinal (mkdate 9999 12 27) + 7 * 1 < toordinal (mkdate 1 1 1)
    ∨ toordinal (mkdate 9999 12 31) < toordinal (mkdate 9999 12 27) + 7 * 1.
Proof.
  apply (week_string_overflow (mkdate 9999 12 27) 1). vm_compute. reflexivity.
Defined.

End week_strings.
